(** * Nexus AI agent: intent classifier, action planner, orchestrator and
      session store

    A shallow embedding of [fastapi-backend/planner.py],
    [fastapi-backend/memory.py] and the planner wrapper of
    [fastapi-backend/main.py], followed by the properties the specification
    states about them.

    Conventions of the embedding.
    - A Python [str] is a [string]; a character is read as the code point of
      the same number (0..255), and [lower], [strip], [\s], [\d], [\w] and
      [\b] follow CPython on that range.
    - A Python [int] is a [Z]: integers are unbounded. The conversions
      between integers and decimal text are not total: [int(...)] on a run
      of digits and [str(...)] on an integer raise [ValueError] beyond
      CPython's default limit of 4300 digits.
    - The [float] confidences are the decimal literals of the source, kept
      exactly as rationals.
    - A [dict] is a [gmap]; values of type [Any] are [pyval].
    - A raised exception is the [Raise] case of [result]. *)

From Stdlib Require Import ZArith QArith String Ascii List Lia DecimalString.
From stdpp Require Import base option gmap strings list.

Local Open Scope string_scope.
Local Open Scope Z_scope.

(** ** Python values and exceptions *)

#[warnings="-register-all"]
Inductive pyval :=
| VNone
| VBool (b : bool)
| VInt (z : Z)
| VStr (s : string)
| VDict (d : gmap string pyval).

(** [bool(v)]: the truth value Python gives to [v]. *)
Definition truthy (v : pyval) : bool :=
  match v with
  | VNone => false
  | VBool b => b
  | VInt z => negb (z =? 0)
  | VStr s => negb (String.eqb s "")
  | VDict d => negb (bool_decide (size d = 0%nat))
  end.

(** [d.get(k)]: the value under [k], [None] when the key is absent. *)
Definition dict_get (d : gmap string pyval) (k : string) : pyval :=
  default VNone (d !! k).

(** [k in d]. *)
Definition dict_has (d : gmap string pyval) (k : string) : bool :=
  bool_decide (is_Some (d !! k)).

Inductive exn :=
| AttributeError
| KeyError (k : string)
| TypeError
| ValueError
| JSONDecodeError.

Inductive result (A : Type) :=
| Ok (a : A)
| Raise (e : exn).
Arguments Ok {A} a.
Arguments Raise {A} e.

Definition rbind {A B} (m : result A) (f : A -> result B) : result B :=
  match m with
  | Ok a => f a
  | Raise e => Raise e
  end.

Notation "x ⇐ y ; z" := (rbind y (fun x => z))
  (at level 20, y at level 100, z at level 200, only parsing).

(** ** Python string operations *)

Module Py.

Definition code (c : ascii) : N := N_of_ascii c.

Definition between (lo hi : N) (c : ascii) : bool :=
  ((lo <=? code c) && (code c <=? hi))%N.

(** [str.isspace] on one character, also the class [\s]. *)
Definition isspace (c : ascii) : bool :=
  between 9 13 c || between 28 32 c || (code c =? 133)%N || (code c =? 160)%N.

(** The class [\d]. *)
Definition isdigit (c : ascii) : bool := between 48 57 c.

(** The class [\w]: alphanumeric or underscore. *)
Definition isword (c : ascii) : bool :=
  between 48 57 c || between 65 90 c || (code c =? 95)%N || between 97 122 c
  || (code c =? 170)%N || between 178 179 c || (code c =? 181)%N
  || between 185 186 c || between 188 190 c || between 192 214 c
  || between 216 246 c || between 248 255 c.

Definition lower_char (c : ascii) : ascii :=
  if between 65 90 c || between 192 214 c || between 216 222 c
  then ascii_of_N (code c + 32) else c.

(** [s.lower()]. *)
Fixpoint lower (s : string) : string :=
  match s with
  | EmptyString => EmptyString
  | String c s' => String (lower_char c) (lower s')
  end.

Fixpoint lstrip (s : string) : string :=
  match s with
  | EmptyString => EmptyString
  | String c s' => if isspace c then lstrip s' else s
  end.

Fixpoint rstrip (s : string) : string :=
  match s with
  | EmptyString => EmptyString
  | String c s' =>
      match rstrip s' with
      | EmptyString => if isspace c then EmptyString else String c EmptyString
      | r => String c r
      end
  end.

(** [s.strip()]. *)
Definition strip (s : string) : string := rstrip (lstrip s).

Fixpoint startswith (p s : string) : bool :=
  match p, s with
  | EmptyString, _ => true
  | String a p', String b s' => Ascii.eqb a b && startswith p' s'
  | String _ _, EmptyString => false
  end.

(** [sub in s] for strings. *)
Fixpoint contains (sub s : string) : bool :=
  startswith sub s ||
  match s with
  | EmptyString => false
  | String _ s' => contains sub s'
  end.

(** [x in l] for a list of strings, and [any(f(w) for w in l)]. *)
Definition str_in (x : string) (l : list string) : bool :=
  existsb (String.eqb x) l.

Definition any {A} (f : A -> bool) (l : list A) : bool := existsb f l.

(** [sep.join(l)]. *)
Fixpoint join (sep : string) (l : list string) : string :=
  match l with
  | [] => ""
  | [x] => x
  | x :: l' => x ++ sep ++ join sep l'
  end.

(** The number a run of decimal digits denotes. *)
Definition int_of_digits (s : string) : Z :=
  fold_left (fun acc c => 10 * acc + Z.of_N (code c - 48))
            (list_ascii_of_string s) 0.

(** The decimal text of an integer. *)
Definition str_of_int (n : Z) : string := NilZero.string_of_int (Z.to_int n).

(** [sys.int_info.default_max_str_digits]: the longest decimal text the
    conversions between [int] and [str] accept. *)
Definition int_max_str_digits : Z := 4300.

(** [int(s)] on a run of decimal digits: every character of the run
    counts, leading zeros too. *)
Definition int_str (s : string) : result Z :=
  if Z.of_nat (String.length s) >? int_max_str_digits then Raise ValueError
  else Ok (int_of_digits s).

(** [str(n)], also the [{n}] of an f-string: the digits of [n] count, its
    sign does not. *)
Definition str_int (n : Z) : result string :=
  if Z.of_nat (String.length (str_of_int (Z.abs n))) >? int_max_str_digits
  then Raise ValueError
  else Ok (str_of_int n).

(** [str(e)] for the [ValueError] of [str_int]. *)
Definition int_limit_text : string :=
  "Exceeds the limit (4300 digits) for integer string conversion; use sys.set_int_max_str_digits() to increase the limit".

(** All characters of [s] are whitespace ([s] may be empty). *)
Fixpoint all_space (s : string) : bool :=
  match s with
  | EmptyString => true
  | String c s' => isspace c && all_space s'
  end.

End Py.

(** ** The fragment of [re] the classifier uses

    Patterns are kept as the strings of the source and compiled by [parse];
    [search] is the leftmost, backtracking search of [re.search]:
    alternatives are tried left to right and the quantifiers are greedy. *)

Module Re.

(** A class of single characters. *)
Inductive cls :=
| Lit (c : ascii)
| Dot
| Digit
| Space
| Union (a b : cls)
| Nothing.

Fixpoint cls_match (k : cls) (c : ascii) : bool :=
  match k with
  | Lit a => Ascii.eqb a c
  | Dot => negb (Ascii.eqb c "010"%char)
  | Digit => Py.isdigit c
  | Space => Py.isspace c
  | Union a b => cls_match a c || cls_match b c
  | Nothing => false
  end.

(** The quantifiers of the source are all applied to one character class. *)
Inductive regex :=
| Empty
| One (k : cls)
| Opt (k : cls)
| Star (k : cls)
| Plus (k : cls)
| Bound
| Cat (r1 r2 : regex)
| Alt (r1 r2 : regex)
| Group (i : nat) (r : regex).

(** *** Compiling a pattern string *)

Definition special (c : ascii) : bool :=
  Py.str_in (String c "") ["|"; "("; ")"; "["; "]"; "*"; "+"; "?"; "."; "\"].

(** An escape [\c] as a class: [\s], [\d], or an escaped punctuation
    character standing for itself; [\b] is handled by the caller and the
    other letter escapes are outside the fragment. *)
Definition escape_cls (c : ascii) : option cls :=
  if Ascii.eqb c "s" then Some Space
  else if Ascii.eqb c "d" then Some Digit
  else if Py.isword c then None
  else Some (Lit c).

(** The inside of [[...]], up to and including the closing bracket. A
    hyphen is taken literally only when escaped or last. *)
Fixpoint parse_class (s : string) : option (cls * string) :=
  match s with
  | EmptyString => None
  | String "]" rest => Some (Nothing, rest)
  | String "\" (String c rest) =>
      e ← escape_cls c;
      '(k, rest') ← parse_class rest; Some (Union e k, rest')
  | String "\" EmptyString => None
  | String "-" (String "]" rest) => Some (Lit "-", rest)
  | String "-" _ => None
  | String c rest =>
      '(k, rest') ← parse_class rest; Some (Union (Lit c) k, rest')
  end.

(** A quantifier after a single-character atom. *)
Definition quantified (k : cls) (s : string) : regex * string :=
  match s with
  | String "*" rest => (Star k, rest)
  | String "+" rest => (Plus k, rest)
  | String "?" rest => (Opt k, rest)
  | _ => (One k, s)
  end.

(** After a group or [\b] no quantifier may follow in this fragment. *)
Definition unquantified (s : string) : bool :=
  match s with
  | String "*" _ | String "+" _ | String "?" _ => false
  | _ => true
  end.

(** [parse_alt fuel s n]: an alternation at the head of [s]; [n] is the
    number of capturing groups opened so far. Returns the expression, the
    rest of the pattern, and the new group count. *)
Fixpoint parse_alt (fuel : nat) (s : string) (n : nat)
  : option (regex * string * nat) :=
  match fuel with
  | O => None
  | S f =>
      '(r1, rest, n1) ← parse_seq f s n;
      match rest with
      | String "|" rest' =>
          '(r2, rest2, n2) ← parse_alt f rest' n1;
          Some (Alt r1 r2, rest2, n2)
      | _ => Some (r1, rest, n1)
      end
  end
with parse_seq (fuel : nat) (s : string) (n : nat)
  : option (regex * string * nat) :=
  match fuel with
  | O => None
  | S f =>
      match s with
      | EmptyString => Some (Empty, s, n)
      | String "|" _ => Some (Empty, s, n)
      | String ")" _ => Some (Empty, s, n)
      | _ =>
          '(r1, rest, n1) ← parse_item f s n;
          '(r2, rest2, n2) ← parse_seq f rest n1;
          Some (Cat r1 r2, rest2, n2)
      end
  end
with parse_item (fuel : nat) (s : string) (n : nat)
  : option (regex * string * nat) :=
  match fuel with
  | O => None
  | S f =>
      match s with
      | String "(" (String "?" (String ":" body)) =>
          '(r, rest, n1) ← parse_alt f body n;
          match rest with
          | String ")" rest' =>
              if unquantified rest' then Some (r, rest', n1) else None
          | _ => None
          end
      | String "(" body =>
          '(r, rest, n1) ← parse_alt f body (S n);
          match rest with
          | String ")" rest' =>
              if unquantified rest' then Some (Group (S n) r, rest', n1)
              else None
          | _ => None
          end
      | String "[" body =>
          '(k, rest) ← parse_class body;
          let '(r, rest') := quantified k rest in Some (r, rest', n)
      | String "\" (String "b" rest) =>
          if unquantified rest then Some (Bound, rest, n) else None
      | String "\" (String c rest) =>
          e ← escape_cls c;
          let '(r, rest') := quantified e rest in Some (r, rest', n)
      | String "." rest =>
          let '(r, rest') := quantified Dot rest in Some (r, rest', n)
      | String c rest =>
          if special c then None
          else let '(r, rest') := quantified (Lit c) rest in
               Some (r, rest', n)
      | EmptyString => None
      end
  end.

(** [re.compile(pattern)]; [None] when the pattern is outside the
    fragment. *)
Definition parse (pattern : string) : option regex :=
  match parse_alt (S (3 * String.length pattern)) pattern 0 with
  | Some (r, EmptyString, _) => Some r
  | _ => None
  end.

(** *** Matching *)

(** The first [length s - length rest] characters of [s]: the text
    consumed between two positions. *)
Definition consumed (s rest : string) : string :=
  String.substring 0 (String.length s - String.length rest) s.

Definition word_before (prev : option ascii) : bool :=
  match prev with
  | Some c => Py.isword c
  | None => false
  end.

Definition word_at (s : string) : bool :=
  match s with
  | String c _ => Py.isword c
  | EmptyString => false
  end.

Definition captures := list (nat * string).

Section Matcher.
Context {R : Type}.

(** A continuation receives the character before the position, the
    remaining input and the groups captured so far. *)
Definition cont := option ascii -> string -> captures -> option R.

(** Greedy repetition of a class: take as many characters as possible,
    give them back one at a time while the continuation fails. *)
Fixpoint star (k : cls) (prev : option ascii) (s : string)
         (caps : captures) (kont : cont) : option R :=
  match s with
  | String c s' =>
      if cls_match k c then
        match star k (Some c) s' caps kont with
        | Some r => Some r
        | None => kont prev s caps
        end
      else kont prev s caps
  | EmptyString => kont prev s caps
  end.

Fixpoint run (r : regex) (prev : option ascii) (s : string)
         (caps : captures) (kont : cont) : option R :=
  match r with
  | Empty => kont prev s caps
  | One k =>
      match s with
      | String c s' => if cls_match k c then kont (Some c) s' caps else None
      | EmptyString => None
      end
  | Opt k =>
      match s with
      | String c s' =>
          if cls_match k c then
            match kont (Some c) s' caps with
            | Some x => Some x
            | None => kont prev s caps
            end
          else kont prev s caps
      | EmptyString => kont prev s caps
      end
  | Star k => star k prev s caps kont
  | Plus k =>
      match s with
      | String c s' =>
          if cls_match k c then star k (Some c) s' caps kont else None
      | EmptyString => None
      end
  | Bound =>
      if xorb (word_before prev) (word_at s) then kont prev s caps
      else None
  | Cat r1 r2 =>
      run r1 prev s caps (fun p' s' c' => run r2 p' s' c' kont)
  | Alt r1 r2 =>
      match run r1 prev s caps kont with
      | Some x => Some x
      | None => run r2 prev s caps kont
      end
  | Group i r1 =>
      run r1 prev s caps
          (fun p' s' c' => kont p' s' ((i, consumed s s') :: c'))
  end.
End Matcher.

(** A match object: [group()] and the numbered groups. *)
Record Match := { group0 : string; groups : captures }.

(** [m.group(i)] for a group that took part in the match. *)
Definition group (m : Match) (i : nat) : string :=
  match find (fun p => Nat.eqb (fst p) i) (groups m) with
  | Some p => snd p
  | None => ""
  end.

Definition match_here (r : regex) (prev : option ascii) (s : string)
  : option Match :=
  run r prev s []
      (fun _ rest caps =>
         Some {| group0 := consumed s rest; groups := caps |}).

Fixpoint search_from (r : regex) (prev : option ascii) (s : string)
  : option Match :=
  match match_here r prev s with
  | Some m => Some m
  | None =>
      match s with
      | String c s' => search_from r (Some c) s'
      | EmptyString => None
      end
  end.

(** [re.search(pattern, s)]. *)
Definition search (pattern : string) (s : string) : option Match :=
  r ← parse pattern; search_from r None s.

Definition matches (pattern : string) (s : string) : bool :=
  bool_decide (is_Some (search pattern s)).

End Re.

(** ** planner.py *)

Module Planner.

Inductive IntentType :=
| GREETING
| OUTLET_SEARCH
| HOURS_INQUIRY
| LOCATION_INQUIRY
| PHONE_INQUIRY
| CALCULATION
| WEATHER_CURRENT
| WEATHER_FORECAST
| WEATHER_LOCATION
| PRODUCT_SEARCH
| OUTLET_SEARCH_NL
| GENERAL_QUESTION
| GOODBYE
| UNCLEAR.

Inductive ActionType :=
| ASK_CLARIFICATION
| SEARCH_OUTLETS
| CALCULATE
| GET_WEATHER
| GET_FORECAST
| SEARCH_WEATHER_LOCATION
| SEARCH_PRODUCTS
| SEARCH_OUTLETS_NL
| PROVIDE_INFO
| RAG_SEARCH
| FINISH.

(** The [.value] of the two enumerations. *)
Definition intent_value (i : IntentType) : string :=
  match i with
  | GREETING => "greeting"
  | OUTLET_SEARCH => "outlet_search"
  | HOURS_INQUIRY => "hours_inquiry"
  | LOCATION_INQUIRY => "location_inquiry"
  | PHONE_INQUIRY => "phone_inquiry"
  | CALCULATION => "calculation"
  | WEATHER_CURRENT => "weather_current"
  | WEATHER_FORECAST => "weather_forecast"
  | WEATHER_LOCATION => "weather_location"
  | PRODUCT_SEARCH => "product_search"
  | OUTLET_SEARCH_NL => "outlet_search_nl"
  | GENERAL_QUESTION => "general_question"
  | GOODBYE => "goodbye"
  | UNCLEAR => "unclear"
  end.

Definition action_value (a : ActionType) : string :=
  match a with
  | ASK_CLARIFICATION => "ask_clarification"
  | SEARCH_OUTLETS => "search_outlets"
  | CALCULATE => "calculate"
  | GET_WEATHER => "get_weather"
  | GET_FORECAST => "get_forecast"
  | SEARCH_WEATHER_LOCATION => "search_weather_location"
  | SEARCH_PRODUCTS => "search_products"
  | SEARCH_OUTLETS_NL => "search_outlets_nl"
  | PROVIDE_INFO => "provide_info"
  | RAG_SEARCH => "rag_search"
  | FINISH => "finish"
  end.

Record ParsedIntent := {
  intent : IntentType;
  entities : gmap string pyval;
  missing_info : list string;
  confidence : Q
}.

Record PlannedAction := {
  action_type : ActionType;
  parameters : gmap string pyval;
  reasoning : string;
  required_tools : list string
}.

Record PlannerResult := {
  result_intent : ParsedIntent;
  result_action : PlannedAction;
  context_updates : gmap string pyval
}.

(** *** IntentClassifier *)

Definition location_patterns : list string := [
  "\b(?:petaling jaya|pj)\b";
  "\b(?:kuala lumpur|kl)\b";
  "\b(?:ss\s*2|ss2)\b";
  "\b(?:ss\s*15|ss15)\b";
  "\bdamansara utama\b";
  "\bklcc\b";
  "\bbukit bintang\b"
].

Definition malaysia_cities : list string := [
  "\b(?:kuala lumpur|kl|johor|penang|selangor|sabah|sarawak)\b";
  "\b(?:ipoh|malacca|melaka|kuching|kota kinabalu|shah alam)\b";
  "\b(?:petaling jaya|pj|subang jaya|klang|ampang)\b"
].

Definition calculation_patterns : list string := [
  "\d+\s*[\+\-\*\/]\s*\d+";
  "calculate|compute|math|plus|minus|times|divided|sum|total"
].

Definition weather_current_patterns : list string := [
  "\b(?:weather|temperature|temp|climate|conditions?)\b";
  "\b(?:hot|cold|warm|cool|humid|dry)\b";
  "\b(?:current|now|today|right now)\b.*\b(?:weather|temperature)\b";
  "\b(?:what\'?s the weather|how\'?s the weather|weather like)\b"
].

Definition weather_forecast_patterns : list string := [
  "\b(?:forecast|tomorrow|next|week|days?|future)\b.*\b(?:weather|rain|storm)\b";
  "\b(?:will it rain|going to rain|rain today|rain tomorrow)\b";
  "\b(?:weather for|forecast for)\b";
  "\b(?:3[\s-]?day|weekly|weekend) (?:weather|forecast)\b"
].

Definition greeting_patterns : list string := [
  "\b(?:hi|hello|hey|good morning|good afternoon|good evening)\b"
].

Definition goodbye_patterns : list string := [
  "\b(?:bye|goodbye|thank you|thanks|see you)\b"
].

Definition product_patterns : list string := [
  "\b(?:product|products|drinkware|mug|mugs|cup|cups|tumbler|tumblers|bottle|bottles)\b";
  "\b(?:travel mug|coffee mug|espresso cup|french press|cold brew|thermal|carafe)\b";
  "\b(?:ceramic|stainless steel|bamboo|glass|eco-friendly)\b";
  "\b(?:buy|purchase|shop|store|merchandise|buy online)\b"
].

Definition advanced_outlet_patterns : list string := [
  "\b(?:find|search|locate|discover)\b.*\b(?:outlet|store|branch|location)\b";
  "\b(?:drive.?thru|drive.?through)\b";
  "\b(?:24.?hour|24.?hours|overnight|late night)\b";
  "\b(?:parking|wifi|meeting|family.?friendly|student.?friendly)\b";
  "\b(?:near|nearby|close to|around)\b"
].

(** The two patterns written inline in [classify_intent]. *)
Definition forecast_days_pattern : string := "(\d+)[\s-]?day".
Definition math_pattern : string := "(\d+)\s*([\+\-\*\/])\s*(\d+)".

(** [for pattern in patterns: if re.search(pattern, s): ... .group(); break]:
    the text matched by the first pattern that matches. *)
Fixpoint first_match (patterns : list string) (s : string) : option string :=
  match patterns with
  | [] => None
  | p :: ps =>
      match Re.search p s with
      | Some m => Some (Re.group0 m)
      | None => first_match ps s
      end
  end.

(** [re.search('|'.join(patterns), s)] as a condition. *)
Definition any_pattern (patterns : list string) (s : string) : bool :=
  Re.matches (Py.join "|" patterns) s.

(** [entities[k] = v] when a match was found, [entities] unchanged
    otherwise. *)
Definition set_found (k : string) (found : option pyval)
           (entities : gmap string pyval) : gmap string pyval :=
  match found with
  | Some v => <[k := v]> entities
  | None => entities
  end.

(** The guard of the hours, location and phone branches:
    [if 'location' not in entities and not session_context.get('area'):
       missing_info.append('location')].
    [session_context] defaults to [None], on which [.get] raises. *)
Definition location_missing (entities : gmap string pyval)
           (session_context : option (gmap string pyval))
  : result (list string) :=
  if dict_has entities "location" then Ok []
  else match session_context with
       | None => Raise AttributeError
       | Some ctx =>
           Ok (if truthy (dict_get ctx "area") then [] else ["location"])
       end.

(** Extract forecast duration:
    [entities['forecast_days'] = int(forecast_match.group(1))]. *)
Definition forecast_days (message_lower : string) : result (option pyval) :=
  match Re.search forecast_days_pattern message_lower with
  | Some forecast_match =>
      days ⇐ Py.int_str (Re.group forecast_match 1);
      Ok (Some (VInt days))
  | None => Ok None
  end.

Definition classify_intent (message : string)
           (session_context : option (gmap string pyval))
  : result ParsedIntent :=
  let message_lower := Py.strip (Py.lower message) in
  (* Handle empty or whitespace-only messages *)
  if String.eqb message_lower "" then
    Ok {| intent := UNCLEAR; entities := ∅;
          missing_info := ["message"]; confidence := 0.0 |}
  else
    (* Extract locations (outlets), weather locations, forecast duration *)
    let entities : gmap string pyval := ∅ in
    let entities :=
      set_found "location"
        (VStr <$> first_match location_patterns message_lower) entities in
    let entities :=
      set_found "weather_location"
        (VStr <$> first_match malaysia_cities message_lower) entities in
    found_days ⇐ forecast_days message_lower;
    let entities := set_found "forecast_days" found_days entities in
    (* Determine intent *)
    if any_pattern greeting_patterns message_lower then
      Ok {| intent := GREETING; entities := entities;
            missing_info := []; confidence := 0.9 |}
    else if any_pattern goodbye_patterns message_lower then
      Ok {| intent := GOODBYE; entities := entities;
            missing_info := []; confidence := 0.9 |}
    else if any_pattern calculation_patterns message_lower then
      match Re.search math_pattern message with
      | Some math_match =>
          operand1 ⇐ Py.int_str (Re.group math_match 1);
          let entities := <["operand1" := VInt operand1]> entities in
          let entities :=
            <["operator" := VStr (Re.group math_match 2)]> entities in
          operand2 ⇐ Py.int_str (Re.group math_match 3);
          let entities := <["operand2" := VInt operand2]> entities in
          Ok {| intent := CALCULATION; entities := entities;
                missing_info := []; confidence := 0.8 |}
      | None =>
          Ok {| intent := CALCULATION; entities := entities;
                missing_info := ["calculation_expression"];
                confidence := 0.6 |}
      end
    else if any_pattern weather_forecast_patterns message_lower then
      let entities :=
        if dict_has entities "forecast_days" then entities
        else <["forecast_days" := VInt 3]> entities in
      Ok {| intent := WEATHER_FORECAST; entities := entities;
            missing_info := []; confidence := 0.8 |}
    else if any_pattern weather_current_patterns message_lower then
      let vague_weather_terms := ["weather"; "temperature"; "temp"; "climate"] in
      if negb (dict_has entities "weather_location")
         && Py.any (fun term => String.eqb term (Py.strip message_lower))
                   vague_weather_terms
      then
        Ok {| intent := WEATHER_CURRENT; entities := entities;
              missing_info := ["location"]; confidence := 0.6 |}
      else
        Ok {| intent := WEATHER_CURRENT; entities := entities;
              missing_info := []; confidence := 0.8 |}
    else if any_pattern product_patterns message_lower then
      Ok {| intent := PRODUCT_SEARCH;
            entities := <["product_query" := VStr message_lower]> entities;
            missing_info := []; confidence := 0.8 |}
    else if any_pattern advanced_outlet_patterns message_lower then
      Ok {| intent := OUTLET_SEARCH_NL;
            entities := <["outlet_query" := VStr message_lower]> entities;
            missing_info := []; confidence := 0.8 |}
    else if Py.contains "outlet" message_lower
            || Py.contains "store" message_lower
            || Py.contains "shop" message_lower
            || Py.contains "mall" message_lower then
      if dict_has entities "location" then
        Ok {| intent := OUTLET_SEARCH; entities := entities;
              missing_info := []; confidence := 0.8 |}
      else
        let vague_outlet_terms :=
          ["outlet"; "outlets"; "store"; "stores"; "shop"; "shops";
           "show outlets"; "find outlets"] in
        Ok {| intent := OUTLET_SEARCH; entities := entities;
              missing_info := ["location"];
              confidence :=
                if Py.any (fun term => String.eqb term (Py.strip message_lower))
                          vague_outlet_terms
                then 0.6 else 0.8 |}
    else if Py.any (fun word => Py.contains word message_lower)
                   ["hour"; "time"; "open"; "close"; "when"] then
      missing_info ⇐ location_missing entities session_context;
      Ok {| intent := HOURS_INQUIRY; entities := entities;
            missing_info := missing_info; confidence := 0.8 |}
    else if Py.any (fun word => Py.contains word message_lower)
                   ["address"; "where"; "located"] then
      missing_info ⇐ location_missing entities session_context;
      Ok {| intent := LOCATION_INQUIRY; entities := entities;
            missing_info := missing_info; confidence := 0.8 |}
    else if Py.any (fun word => Py.contains word message_lower)
                   ["phone"; "number"; "contact"; "call"] then
      missing_info ⇐ location_missing entities session_context;
      Ok {| intent := PHONE_INQUIRY; entities := entities;
            missing_info := missing_info; confidence := 0.8 |}
    (* Handle single-word vague requests *)
    else if Py.str_in (Py.strip message_lower)
                      ["calculate"; "computation"; "math"] then
      Ok {| intent := CALCULATION; entities := entities;
            missing_info := ["calculation_expression"]; confidence := 0.5 |}
    else
      Ok {| intent := UNCLEAR; entities := entities;
            missing_info := ["clarification"]; confidence := 0.3 |}.

(** *** ToolExecutor *)

(** One record of the outlet catalogue, as [json.loads] returns it. *)
Abbreviation outlet := (gmap string string).

(** The executor: the parsed [outlets_data] ([None] when the text is not
    JSON, so that [json.loads] raises) and the remote-backed tools. Each
    remote tool wraps its whole body in [try/except] and returns a string
    on every path, so it is a total function of its arguments. *)
Record ToolExecutor := {
  outlets_data : option (list outlet);
  get_current_weather : pyval -> string;
  get_weather_forecast : pyval -> pyval -> string;
  search_products : pyval -> string;
  search_outlets_nl : pyval -> string;
  (** The text of [operand1 / operand2] in the f-string of
      [execute_calculation], for a non-zero divisor: the [repr] of the
      float quotient, or [None] when the division raises [OverflowError]. *)
  true_division_text : Z -> Z -> option string;
  (** What [execute_calculation] returns on operands that are not an
      [int], a [str] and an [int]: its whole body is inside [try/except
      Exception], so it returns a string there too; which one is left
      open. *)
  calculation_on_other_types : pyval -> pyval -> pyval -> string
}.

Definition nl : string := String "010"%char "".

(** [execute_calculation] on an [int], a [str] and an [int]. The f-string
    converts the operands and the result in turn; a conversion that raises
    ends in the [except] branch, as does a division too large for a
    float. *)
Definition execute_calculation (te : ToolExecutor)
           (operand1 : Z) (operator : string) (operand2 : Z) : string :=
  let render (result : result string) : string :=
    match (o1 ⇐ Py.str_int operand1;
           o2 ⇐ Py.str_int operand2;
           r ⇐ result;
           Ok (o1 ++ " " ++ operator ++ " " ++ o2 ++ " = " ++ r)) with
    | Ok text => text
    | Raise _ => "Calculation error: " ++ Py.int_limit_text
    end in
  if String.eqb operator "+" then
    render (Py.str_int (operand1 + operand2))
  else if String.eqb operator "-" then
    render (Py.str_int (operand1 - operand2))
  else if String.eqb operator "*" then
    render (Py.str_int (operand1 * operand2))
  else if String.eqb operator "/" then
    if operand2 =? 0 then "Error: Cannot divide by zero"
    else match true_division_text te operand1 operand2 with
         | Some q => render (Ok q)
         | None =>
             "Calculation error: integer division result too large for a float"
         end
  else "Error: Unsupported operator".

(** [d[k]]. *)
Definition getitem {V} (d : gmap string V) (k : string) : result V :=
  match d !! k with
  | Some v => Ok v
  | None => Raise (KeyError k)
  end.

(** [v.lower()]: only a string has the method. *)
Definition lower_of (v : pyval) : result string :=
  match v with
  | VStr s => Ok (Py.lower s)
  | _ => Raise AttributeError
  end.

(** A list comprehension with a condition that may raise. *)
Fixpoint filter_outlets (cond : outlet -> result bool) (l : list outlet)
  : result (list outlet) :=
  match l with
  | [] => Ok []
  | o :: l' =>
      b ⇐ cond o;
      rest ⇐ filter_outlets cond l';
      Ok (if b then o :: rest else rest)
  end.

(** [location_lower in outlet['location'].lower() or
     location_lower in outlet['area'].lower()]. *)
Definition by_location (location_lower : string) (o : outlet) : result bool :=
  loc ⇐ getitem o "location";
  if Py.contains location_lower (Py.lower loc) then Ok true
  else a ⇐ getitem o "area"; Ok (Py.contains location_lower (Py.lower a)).

(** [area_lower in outlet['area'].lower()]. *)
Definition by_area (area_lower : string) (o : outlet) : result bool :=
  a ⇐ getitem o "area"; Ok (Py.contains area_lower (Py.lower a)).

(** The filter shared by [search_outlets] and [get_hours_info]; [None]
    when neither argument is truthy. *)
Definition select_outlets (data : list outlet) (location area : pyval)
  : result (option (list outlet)) :=
  if truthy location then
    location_lower ⇐ lower_of location;
    l ⇐ filter_outlets (by_location location_lower) data; Ok (Some l)
  else if truthy area then
    area_lower ⇐ lower_of area;
    l ⇐ filter_outlets (by_area area_lower) data; Ok (Some l)
  else Ok None.

Definition load_outlets (te : ToolExecutor) : result (list outlet) :=
  match outlets_data te with
  | Some data => Ok data
  | None => Raise JSONDecodeError
  end.

(** [for outlet in filtered_outlets: result += line(outlet)]. *)
Fixpoint render_lines (line : outlet -> result string) (l : list outlet)
         (acc : string) : result string :=
  match l with
  | [] => Ok acc
  | o :: l' => s ⇐ line o; render_lines line l' (acc ++ s)
  end.

(** The count in the first line is the length of a list in memory, far
    below the limit of [str] on digits. *)
Definition search_outlets (te : ToolExecutor) (location area : pyval)
  : result string :=
  data ⇐ load_outlets te;
  selected ⇐ select_outlets data location area;
  let filtered_outlets := default data selected in
  match filtered_outlets with
  | [] => Ok "No outlets found matching your criteria."
  | _ =>
      render_lines
        (fun o =>
           n ⇐ getitem o "name"; loc ⇐ getitem o "location";
           Ok ("• " ++ n ++ " - " ++ loc ++ nl))
        filtered_outlets
        ("Found " ++ Py.str_of_int (Z.of_nat (length filtered_outlets))
           ++ " outlet(s):" ++ nl)
  end.

Definition get_hours_info (te : ToolExecutor) (location area : pyval)
  : result string :=
  data ⇐ load_outlets te;
  selected ⇐ select_outlets data location area;
  match selected with
  | None => Ok "Please specify which outlet you'd like hours for."
  | Some [] => Ok "No outlets found matching your criteria."
  | Some filtered_outlets =>
      render_lines
        (fun o =>
           n ⇐ getitem o "name"; ot ⇐ getitem o "opening_time";
           ct ⇐ getitem o "closing_time";
           Ok ("• " ++ n ++ ": " ++ ot ++ " - " ++ ct ++ nl))
        filtered_outlets ("Opening hours:" ++ nl)
  end.

(** *** ActionPlanner *)

(** [d.get(k, dflt)]. *)
Definition dict_get_or (d : gmap string pyval) (k : string) (dflt : pyval)
  : pyval :=
  default dflt (d !! k).

Definition plan_action (intent : ParsedIntent)
           (session_context : gmap string pyval) : PlannedAction :=
  match Planner.intent intent with
  | GREETING =>
      {| action_type := PROVIDE_INFO;
         parameters := {[ "message" := VStr "Hello! I'm here to help you find information about our outlets. How can I assist you today?" ]};
         reasoning := "User greeted the bot, respond warmly and offer help";
         required_tools := [] |}
  | GOODBYE =>
      {| action_type := FINISH;
         parameters := {[ "message" := VStr "Thank you for using our outlet assistant! Have a great day!" ]};
         reasoning := "User is ending conversation, provide polite farewell";
         required_tools := [] |}
  | CALCULATION =>
      match missing_info intent with
      | _ :: _ =>
          {| action_type := ASK_CLARIFICATION;
             parameters := {[ "question" := VStr "I'd be happy to help with calculations! Could you please provide a clear math expression? For example: '5 + 3' or '10 * 2'" ]};
             reasoning := "Missing calculation expression, need clarification";
             required_tools := [] |}
      | [] =>
          {| action_type := CALCULATE;
             parameters := entities intent;
             reasoning := "User wants calculation and all parameters are available";
             required_tools := ["calculator"] |}
      end
  | WEATHER_CURRENT =>
      if Py.str_in "location" (missing_info intent) then
        {| action_type := ASK_CLARIFICATION;
           parameters := {[ "question" := VStr "Which city would you like the weather for? I can provide weather for any Malaysian city. If you don't specify, I'll show weather for Kuala Lumpur." ]};
           reasoning := "Very vague weather request, asking for clarification";
           required_tools := [] |}
      else
        let location :=
          dict_get_or (entities intent) "weather_location"
                      (VStr "Kuala Lumpur, Malaysia") in
        {| action_type := GET_WEATHER;
           parameters := {[ "location" := location ]};
           reasoning := "User wants current weather information";
           required_tools := ["weather_api"] |}
  | WEATHER_FORECAST =>
      if Py.str_in "location" (missing_info intent) then
        {| action_type := ASK_CLARIFICATION;
           parameters := {[ "question" := VStr "Which city would you like the weather forecast for? I can provide forecasts for any Malaysian city." ]};
           reasoning := "Missing location for weather forecast";
           required_tools := [] |}
      else
        let location :=
          dict_get_or (entities intent) "weather_location"
                      (VStr "Kuala Lumpur, Malaysia") in
        let days := dict_get_or (entities intent) "forecast_days" (VInt 3) in
        {| action_type := GET_FORECAST;
           parameters := <["days" := days]> {[ "location" := location ]};
           reasoning := "User wants weather forecast information";
           required_tools := ["weather_api"] |}
  | PRODUCT_SEARCH =>
      {| action_type := SEARCH_PRODUCTS;
         parameters :=
           {[ "query" := dict_get_or (entities intent) "product_query" (VStr "") ]};
         reasoning := "User wants to search for ZUS Coffee drinkware products";
         required_tools := ["product_kb"] |}
  | OUTLET_SEARCH_NL =>
      {| action_type := SEARCH_OUTLETS_NL;
         parameters :=
           {[ "query" := dict_get_or (entities intent) "outlet_query" (VStr "") ]};
         reasoning := "User wants to search outlets using natural language query";
         required_tools := ["outlets_db"] |}
  | OUTLET_SEARCH =>
      if Py.str_in "location" (missing_info intent)
         && negb (truthy (dict_get session_context "area")) then
        {| action_type := ASK_CLARIFICATION;
           parameters := {[ "question" := VStr "Which area are you interested in? We have outlets in Petaling Jaya (SS 2, SS 15, Damansara Utama) and Kuala Lumpur (KLCC, Bukit Bintang)." ]};
           reasoning := "Missing location information for outlet search";
           required_tools := [] |}
      else
        let search_params : gmap string pyval :=
          match entities intent !! "location" with
          | Some location => {[ "location" := location ]}
          | None =>
              if truthy (dict_get session_context "area")
              then {[ "area" := dict_get session_context "area" ]}
              else ∅
          end in
        {| action_type := SEARCH_OUTLETS;
           parameters := search_params;
           reasoning := "User wants outlet information and location is available";
           required_tools := ["outlet_search"] |}
  | HOURS_INQUIRY =>
      if Py.str_in "location" (missing_info intent)
         && negb (truthy (dict_get session_context "area"))
         && negb (truthy (dict_get session_context "last_outlet_mentioned")) then
        {| action_type := ASK_CLARIFICATION;
           parameters := {[ "question" := VStr "Which outlet would you like the opening hours for? Please specify the location." ]};
           reasoning := "Missing location information for hours inquiry";
           required_tools := [] |}
      else
        let search_params : gmap string pyval :=
          match entities intent !! "location" with
          | Some location => {[ "location" := location ]}
          | None =>
              if truthy (dict_get session_context "last_outlet_mentioned")
              then {[ "location" := dict_get session_context "last_outlet_mentioned" ]}
              else if truthy (dict_get session_context "specific_location")
              then {[ "location" := dict_get session_context "specific_location" ]}
              else if truthy (dict_get session_context "area")
              then {[ "area" := dict_get session_context "area" ]}
              else ∅
          end in
        {| action_type := PROVIDE_INFO;
           parameters :=
             <["tool_params" := VDict search_params]>
               {[ "tool_call" := VStr "get_hours_info" ]};
           reasoning := "User wants hours information and location is available from context";
           required_tools := ["outlet_search"] |}
  | UNCLEAR =>
      {| action_type := ASK_CLARIFICATION;
         parameters := {[ "question" := VStr "I'm not sure I understand. Are you looking for outlet locations, opening hours, contact information, or something else? I can also help with simple calculations!" ]};
         reasoning := "User intent is unclear, need clarification";
         required_tools := [] |}
  | _ =>
      (* Default fallback *)
      {| action_type := ASK_CLARIFICATION;
         parameters := {[ "question" := VStr "How can I help you today? I can provide information about our outlet locations, hours, contact details, current weather conditions, and weather forecasts for Malaysia." ]};
         reasoning := "Fallback action for unhandled intents";
         required_tools := [] |}
  end.

(** *** AgenticPlanner *)

(** [action.parameters['message'] = result]. The models of pydantic build
    their dictionary fields anew when they are constructed, so the
    parameters of a [calculate] action are a copy of the entities, which
    this assignment leaves as they are. *)
Definition set_message (action : PlannedAction) (result : string)
  : PlannedAction :=
  {| action_type := action_type action;
     parameters := <["message" := VStr result]> (parameters action);
     reasoning := reasoning action;
     required_tools := required_tools action |}.

(** The call [execute_calculation(operand1, operator, operand2)] on values
    read from a dictionary: on the annotated types [int], [str], [int],
    which are the types [classify_intent] stores, and on others. No call
    raises. *)
Definition call_calculation (te : ToolExecutor)
           (operand1 operator operand2 : pyval) : string :=
  match operand1, operator, operand2 with
  | VInt a, VStr op, VInt b => execute_calculation te a op b
  | _, _, _ => calculation_on_other_types te operand1 operator operand2
  end.

(** Unpacking a dictionary into the keyword parameters [location] and
    [area], which both default to [None]: any other key is an unexpected
    keyword argument. *)
Definition unpack_location_area (d : gmap string pyval)
  : result (pyval * pyval) :=
  if bool_decide (dom d ⊆ ({[ "location"; "area" ]} : gset string))
  then Ok (dict_get d "location", dict_get d "area")
  else Raise TypeError.

(** [get_hours_info] called on the unpacked [tool_params]: only a mapping
    can be unpacked into keyword arguments. *)
Definition call_hours_info (te : ToolExecutor) (tool_params : pyval)
  : result string :=
  match tool_params with
  | VDict d =>
      args ⇐ unpack_location_area d;
      get_hours_info te (fst args) (snd args)
  | _ => Raise TypeError
  end.

(** Step 3 of [process_message]: execute tools if required. *)
Definition execute_tools (te : ToolExecutor) (action : PlannedAction)
  : result PlannedAction :=
  let params := parameters action in
  match action_type action with
  | CALCULATE =>
      operand1 ⇐ getitem params "operand1";
      operator ⇐ getitem params "operator";
      operand2 ⇐ getitem params "operand2";
      Ok (set_message action
            (call_calculation te operand1 operator operand2))
  | SEARCH_OUTLETS =>
      args ⇐ unpack_location_area params;
      result ⇐ search_outlets te (fst args) (snd args);
      Ok (set_message action result)
  | GET_WEATHER =>
      Ok (set_message action
            (get_current_weather te (dict_get params "location")))
  | GET_FORECAST =>
      Ok (set_message action
            (get_weather_forecast te (dict_get_or params "days" (VInt 3))
                                  (dict_get params "location")))
  | SEARCH_PRODUCTS =>
      Ok (set_message action
            (search_products te (dict_get_or params "query" (VStr ""))))
  | SEARCH_OUTLETS_NL =>
      Ok (set_message action
            (search_outlets_nl te (dict_get_or params "query" (VStr ""))))
  | _ =>
      match dict_get params "tool_call" with
      | VStr "get_hours_info" =>
          tool_params ⇐ getitem params "tool_params";
          result ⇐ call_hours_info te tool_params;
          Ok (set_message action result)
      | _ => Ok action
      end
  end.

(** Step 4 of [process_message]: determine context updates. *)
Definition derive_context_updates (intent : ParsedIntent)
  : result (gmap string pyval) :=
  match entities intent !! "location" with
  | None => Ok ∅
  | Some entity =>
      location ⇐ lower_of entity;
      let context_updates : gmap string pyval :=
        {[ "last_outlet_mentioned" := entity ]} in
      if Py.any (fun area => Py.contains area location)
                ["petaling jaya"; "pj"; "ss 2"; "ss2"; "ss 15"; "ss15";
                 "damansara"] then
        let context_updates :=
          <["area" := VStr "petaling_jaya"]> context_updates in
        if Py.contains "ss 2" location || Py.contains "ss2" location then
          Ok (<["specific_location" := VStr "ss 2"]> context_updates)
        else if Py.contains "ss 15" location || Py.contains "ss15" location then
          Ok (<["specific_location" := VStr "ss 15"]> context_updates)
        else if Py.contains "damansara" location then
          Ok (<["specific_location" := VStr "damansara utama"]> context_updates)
        else Ok context_updates
      else if Py.any (fun area => Py.contains area location)
                     ["kuala lumpur"; "kl"; "klcc"; "bukit bintang"] then
        let context_updates :=
          <["area" := VStr "kuala_lumpur"]> context_updates in
        if Py.contains "klcc" location then
          Ok (<["specific_location" := VStr "klcc"]> context_updates)
        else if Py.contains "bukit bintang" location then
          Ok (<["specific_location" := VStr "bukit bintang"]> context_updates)
        else Ok context_updates
      else Ok context_updates
  end.

(** Main planning loop: classify intent -> plan action -> execute if
    needed. *)
Definition process_message (te : ToolExecutor) (message : string)
           (session_context : gmap string pyval) : result PlannerResult :=
  intent ⇐ classify_intent message (Some session_context);
  let action := plan_action intent session_context in
  action ⇐ execute_tools te action;
  context_updates ⇐ derive_context_updates intent;
  Ok {| result_intent := intent;
        result_action := action;
        context_updates := context_updates |}.

End Planner.

(** ** memory.py

    [uuid.uuid4()] and [datetime.now()] are inputs of the operations that
    call them: [uuid] is the string [str(uuid.uuid4())] would return and
    [now] the reading of the clock, one reading per operation. *)

Module Memory.

Record ConversationTurn := {
  user_message : string;
  bot_response : string;
  timestamp : Z;
  turn_number : Z
}.

Record ConversationSession := {
  session_id : string;
  turns : list ConversationTurn;
  context : gmap string pyval;
  created_at : Z;
  last_updated : Z
}.

Record ConversationMemoryManager := {
  sessions : gmap string ConversationSession;
  window_size : Z
}.

(** [ConversationMemoryManager(window_size)]. *)
Definition init (window_size : Z) : ConversationMemoryManager :=
  {| sessions := ∅; window_size := window_size |}.

(** The global instance [memory_manager = ConversationMemoryManager()], with
    the default [window_size = 10]. *)
Definition memory_manager : ConversationMemoryManager := init 10.

Definition set_sessions (m : ConversationMemoryManager)
           (s : gmap string ConversationSession) : ConversationMemoryManager :=
  {| sessions := s; window_size := window_size m |}.

(** [l[start:]] with Python's treatment of a negative or too large index. *)
Definition slice_from {A} (start : Z) (l : list A) : list A :=
  let n := Z.of_nat (length l) in
  let i := if start <? 0 then Z.max (n + start) 0 else Z.min start n in
  drop (Z.to_nat i) l.

Definition create_session (uuid : string) (now : Z)
           (m : ConversationMemoryManager) : string * ConversationMemoryManager :=
  let session_id := uuid in
  (session_id,
   set_sessions m
     (<[session_id := {| session_id := session_id; turns := [];
                         context := ∅; created_at := now;
                         last_updated := now |}]> (sessions m))).

(** [session_id] is [Optional[str]]; the guard tests its truth value before
    the membership. *)
Definition get_or_create_session (session_id : option string)
           (uuid : string) (now : Z) (m : ConversationMemoryManager)
  : string * ConversationMemoryManager :=
  match session_id with
  | Some sid =>
      if negb (String.eqb sid "") && bool_decide (is_Some (sessions m !! sid))
      then (sid, m)
      else create_session uuid now m
  | None => create_session uuid now m
  end.

Definition add_turn (uuid : string) (now : Z)
           (session_id user_message bot_response : string)
           (m : ConversationMemoryManager) : ConversationMemoryManager :=
  let '(session_id, m) :=
    if bool_decide (is_Some (sessions m !! session_id)) then (session_id, m)
    else create_session uuid now m in
  match sessions m !! session_id with
  | None => m
  | Some session =>
      let turn :=
        {| user_message := user_message; bot_response := bot_response;
           timestamp := now;
           turn_number := Z.of_nat (length (turns session)) + 1 |} in
      let turns' := (turns session ++ [turn])%list in
      (* Keep only the last N turns based on window size *)
      let turns' :=
        if Z.of_nat (length turns') >? window_size m
        then slice_from (- window_size m) turns' else turns' in
      set_sessions m
        (<[session_id := {| session_id := Memory.session_id session;
                            turns := turns';
                            context := context session;
                            created_at := created_at session;
                            last_updated := now |}]> (sessions m))
  end.

Definition get_conversation_history (session_id : string)
           (m : ConversationMemoryManager) : list ConversationTurn :=
  match sessions m !! session_id with
  | None => []
  | Some session => turns session
  end.

Definition update_context (now : Z) (session_id key : string) (value : pyval)
           (m : ConversationMemoryManager) : ConversationMemoryManager :=
  match sessions m !! session_id with
  | None => m
  | Some session =>
      set_sessions m
        (<[session_id := {| session_id := Memory.session_id session;
                            turns := turns session;
                            context := <[key := value]> (context session);
                            created_at := created_at session;
                            last_updated := now |}]> (sessions m))
  end.

Definition get_context (session_id key : string)
           (m : ConversationMemoryManager) : pyval :=
  match sessions m !! session_id with
  | None => VNone
  | Some session => dict_get (context session) key
  end.

Definition clear_session (session_id : string)
           (m : ConversationMemoryManager) : bool * ConversationMemoryManager :=
  match sessions m !! session_id with
  | None => (false, m)
  | Some _ => (true, set_sessions m (delete session_id (sessions m)))
  end.

(** The mutations of the store, with the values drawn while they run. *)
Inductive mutation :=
| CreateSession (uuid : string) (now : Z)
| GetOrCreateSession (session_id : option string) (uuid : string) (now : Z)
| AddTurn (uuid : string) (now : Z)
          (session_id user_message bot_response : string)
| UpdateContext (now : Z) (session_id key : string) (value : pyval)
| ClearSession (session_id : string).

Definition apply (op : mutation) (m : ConversationMemoryManager)
  : ConversationMemoryManager :=
  match op with
  | CreateSession uuid now => snd (create_session uuid now m)
  | GetOrCreateSession sid uuid now => snd (get_or_create_session sid uuid now m)
  | AddTurn uuid now sid um br => add_turn uuid now sid um br m
  | UpdateContext now sid k v => update_context now sid k v m
  | ClearSession sid => snd (clear_session sid m)
  end.

(** A sequence of mutations, applied from left to right. *)
Definition run (ops : list mutation) (m : ConversationMemoryManager)
  : ConversationMemoryManager :=
  fold_left (fun m op => apply op m) ops m.

End Memory.

(** ** main.py: the conversation agent around the planner *)

Module Main.

Import Memory.

(** The agent: the tool executor of its planner, and the language-model
    call of [process_message]. The call stands for the body of the [try]
    after [extract_location_context]: [inl] is the stripped reply, [inr] the
    text [str(e)] of an exception raised there. *)
Record ConversationAgent := {
  tool_executor : Planner.ToolExecutor;
  chat_completion :
    ConversationMemoryManager -> string -> string -> string + string
}.

(** Extract and store location context from message. *)
Definition extract_location_context (now : Z) (message session_id : string)
           (m : ConversationMemoryManager) : ConversationMemoryManager :=
  let message_lower := Py.lower message in
  let has s := Py.contains s message_lower in
  let set k v m := update_context now session_id k (VStr v) m in
  let m :=
    if has "petaling jaya" || has "pj" then set "area" "petaling_jaya" m
    else if has "kuala lumpur" || has "kl" then set "area" "kuala_lumpur" m
    else m in
  if has "ss 2" || has "ss2" then
    set "specific_location" "ss 2" (set "area" "petaling_jaya" m)
  else if has "ss 15" || has "ss15" then
    set "specific_location" "ss 15" (set "area" "petaling_jaya" m)
  else if has "damansara utama" then
    set "specific_location" "damansara utama" (set "area" "petaling_jaya" m)
  else if has "klcc" then
    set "specific_location" "klcc" (set "area" "kuala_lumpur" m)
  else if has "bukit bintang" then
    set "specific_location" "bukit bintang" (set "area" "kuala_lumpur" m)
  else m.

(** [ConversationAgent.process_message]: the whole body is inside
    [try/except Exception], so a string is returned on every path. *)
Definition process_message (agent : ConversationAgent) (now : Z)
           (message session_id : string) (m : ConversationMemoryManager)
  : string * ConversationMemoryManager :=
  let m := extract_location_context now message session_id m in
  match chat_completion agent m message session_id with
  | inl reply => (reply, m)
  | inr e =>
      ("I'm sorry, I'm having trouble processing your request right now. Please try again. (Error: "
         ++ e ++ ")", m)
  end.

(** The tuple [process_message_with_planner_detailed] returns. *)
Record Detailed := {
  response_text : pyval;
  intent_label : string;
  action_label : string;
  reasoning : string;
  confidence : Q;
  tools_used : list string
}.

(** [for key, value in context_updates.items(): update_context(...)]. *)
Definition apply_context_updates (now : Z) (session_id : string)
           (updates : gmap string pyval) (m : ConversationMemoryManager)
  : ConversationMemoryManager :=
  map_fold (fun key value m => update_context now session_id key value m)
           m updates.

(** The [try] block of [process_message_with_planner_detailed]. The store
    keeps the updates made before an exception. *)
Definition planner_attempt (agent : ConversationAgent) (now : Z)
           (message session_id : string) (m : ConversationMemoryManager)
  : result Detailed * ConversationMemoryManager :=
  let session_context : gmap string pyval :=
    <["specific_location" := get_context session_id "specific_location" m]>
      {[ "area" := get_context session_id "area" m ]} in
  match Planner.process_message (tool_executor agent) message session_context with
  | Raise e => (Raise e, m)
  | Ok planner_result =>
      let m :=
        apply_context_updates now session_id
          (Planner.context_updates planner_result) m in
      let action := Planner.result_action planner_result in
      let intent := Planner.result_intent planner_result in
      let detailed (text : pyval) :=
        {| response_text := text;
           intent_label := Planner.intent_value (Planner.intent intent);
           action_label := Planner.action_value (Planner.action_type action);
           reasoning := Planner.reasoning action;
           confidence := Planner.confidence intent;
           tools_used := Planner.required_tools action |} in
      let from_key (k : string) :=
        match Planner.getitem (Planner.parameters action) k with
        | Ok text => (Ok (detailed text), m)
        | Raise e => (Raise e, m)
        end in
      match Planner.action_type action with
      | Planner.ASK_CLARIFICATION => from_key "question"
      | Planner.PROVIDE_INFO
      | Planner.SEARCH_OUTLETS
      | Planner.CALCULATE
      | Planner.FINISH
      | Planner.GET_WEATHER
      | Planner.GET_FORECAST => from_key "message"
      | _ =>
          let '(text, m) := process_message agent now message session_id m in
          (Ok (detailed (VStr text)), m)
      end
  end.

Definition process_message_with_planner_detailed
           (agent : ConversationAgent) (now : Z)
           (message session_id : string) (m : ConversationMemoryManager)
  : Detailed * ConversationMemoryManager :=
  match planner_attempt agent now message session_id m with
  | (Ok d, m) => (d, m)
  | (Raise e, m) =>
      (* Fallback to basic LLM response *)
      let '(fallback_response, m) :=
        process_message agent now message session_id m in
      ({| response_text := VStr fallback_response;
          intent_label := "general_question";
          action_label := "provide_info";
          reasoning := "Fallback due to planner error";
          confidence := 0.5;
          tools_used := [] |}, m)
  end.

End Main.

(** ** More of the Python library: replacing one character *)

Module PyText.

(** [s.replace(old, new)] for a one-character [old]. *)
Fixpoint replace_char (old : ascii) (new : string) (s : string) : string :=
  match s with
  | EmptyString => EmptyString
  | String c s' =>
      if Ascii.eqb c old then new ++ replace_char old new s'
      else String c (replace_char old new s')
  end.

(** The double quote, which a string literal cannot hold. *)
Definition dquote : ascii := "034"%char.

(** [html.escape(s)], with its default [quote=True]: the ampersand first,
    then the angle brackets and the two quotes. *)
Definition html_escape (s : string) : string :=
  let s := replace_char "&" "&amp;" s in
  let s := replace_char "<" "&lt;" s in
  let s := replace_char ">" "&gt;" s in
  let s := replace_char dquote "&quot;" s in
  replace_char "'" "&#x27;" s.

End PyText.

(** ** outlets.py *)

Module Outlets.

Record OutletInfo := {
  name : string;
  location : string;
  area : string;
  opening_time : string;
  closing_time : string;
  phone : option string;
  address : option string
}.

(** Sample outlet data. The dictionary is kept as the list of its items, in
    insertion order, which is the order its iterations follow. *)
Definition OUTLETS_DATA : list (string * list OutletInfo) := [
  ("petaling_jaya", [
     {| name := "SS 2 Outlet"; location := "SS 2"; area := "Petaling Jaya";
        opening_time := "9:00 AM"; closing_time := "10:00 PM";
        phone := Some "+603-7876-5432";
        address := Some "No. 15, Jalan SS 2/24, SS 2, 47300 Petaling Jaya, Selangor" |};
     {| name := "SS 15 Outlet"; location := "SS 15"; area := "Petaling Jaya";
        opening_time := "8:30 AM"; closing_time := "9:30 PM";
        phone := Some "+603-7876-1234";
        address := Some "No. 8, Jalan SS 15/3A, SS 15, 47500 Petaling Jaya, Selangor" |};
     {| name := "Damansara Utama Outlet"; location := "Damansara Utama";
        area := "Petaling Jaya";
        opening_time := "10:00 AM"; closing_time := "11:00 PM";
        phone := Some "+603-7726-8888";
        address := Some "G-12, Damansara Utama, 47400 Petaling Jaya, Selangor" |}
   ]);
  ("kuala_lumpur", [
     {| name := "KLCC Outlet"; location := "KLCC"; area := "Kuala Lumpur";
        opening_time := "10:00 AM"; closing_time := "10:00 PM";
        phone := Some "+603-2161-9999";
        address := Some "Level 2, Suria KLCC, 50088 Kuala Lumpur" |};
     {| name := "Bukit Bintang Outlet"; location := "Bukit Bintang";
        area := "Kuala Lumpur";
        opening_time := "11:00 AM"; closing_time := "11:30 PM";
        phone := Some "+603-2148-7777";
        address := Some "Lot 10 Shopping Centre, 50 Jalan Sultan Ismail, 50250 Kuala Lumpur" |}
   ])
].

(** [d.get(key, [])] on a dictionary kept as its items. *)
Fixpoint get_or_empty {A} (d : list (string * list A)) (key : string) : list A :=
  match d with
  | [] => []
  | (k, v) :: d' => if String.eqb k key then v else get_or_empty d' key
  end.

(** [OutletService], with [self.outlets] as its argument. *)
Definition find_outlets_by_area (outlets : list (string * list OutletInfo))
           (area : string) : list OutletInfo :=
  let area_key := PyText.replace_char " " "_" (Py.lower area) in
  get_or_empty outlets area_key.

Definition find_outlet_by_location (outlets : list (string * list OutletInfo))
           (area location : string) : option OutletInfo :=
  find (fun outlet =>
          Py.contains (Py.lower location) (Py.lower (Outlets.location outlet)))
       (find_outlets_by_area outlets area).

Definition search_outlets (outlets : list (string * list OutletInfo))
           (query : string) : list OutletInfo :=
  let query_lower := Py.lower query in
  List.filter (fun outlet =>
            Py.contains query_lower (Py.lower (name outlet))
            || Py.contains query_lower (Py.lower (Outlets.location outlet))
            || Py.contains query_lower (Py.lower (area outlet)))
         (concat (map snd outlets)).

End Outlets.

(** ** planner.py: the weather replies of the tool executor

    [weather_agent.py] returns a dictionary of one of two shapes: a success
    with its [formatted_response], or an [error] text. The executor's
    [try/except] adds the case of an exception, and a result that is
    neither is the last [else] of the executor. *)

Module Weather.

Inductive outcome :=
| Success (formatted_response : string)
| Error (error : string)
| Neither
| Raised.



Definition no_agent_reply : string :=
  "I'm sorry, but the weather service is currently unavailable. Please try again later or contact support.".

Definition timeout_reply : string :=
  "The weather service is taking longer than expected to respond. Please try again in a moment.".

Definition issues_reply : string :=
  "The weather service is currently experiencing issues. Please try again later.".

Definition unavailable_reply : string :=
  "The weather service is currently unavailable. Please try again later.".

(** [ToolExecutor.get_current_weather], given whether the weather agent
    was imported and what its call yields. *)
Definition get_current_weather (agent : option (pyval -> outcome))
           (location : pyval) : string :=
  match agent with
  | None => no_agent_reply
  | Some call =>
      match call location with
      | Success formatted_response => formatted_response
      | Error error_msg =>
          if String.eqb error_msg "" then
            "I couldn't retrieve weather information right now. Please try again later."
          else if Py.contains "timeout" (Py.lower error_msg) then timeout_reply
          else if Py.contains "api" (Py.lower error_msg)
                  && Py.contains "error" (Py.lower error_msg) then issues_reply
          else "I'm unable to fetch weather information at the moment. "
                 ++ error_msg
      | Neither =>
          "I couldn't retrieve weather information right now. Please try again later."
      | Raised => unavailable_reply
      end
  end.

End Weather.

(** ** memory.py: the history as text *)

Module MemoryText.

Import Memory.

Definition turn_lines (turn : ConversationTurn) : list string :=
  ["User: " ++ user_message turn; "Assistant: " ++ bot_response turn].

(** Get conversation context as a formatted string for LLM input. *)
Definition get_conversation_context (session_id : string)
           (m : ConversationMemoryManager) : string :=
  match sessions m !! session_id with
  | None => ""
  | Some session =>
      match turns session with
      | [] => ""
      | _ =>
          Py.join Planner.nl
            (flat_map turn_lines
               (slice_from (- window_size m) (turns session)))
      end
  end.

End MemoryText.

(** ** main.py: the executor's data, the [/chat] path and the validators *)

Module Chat.

Import Memory.

(** One item of [ConversationAgent._get_outlets_data], after the round trip
    through [json.dumps] and [json.loads]. A [phone] or [address] that is
    [None] would come back as a JSON null, which no tool reads; the record
    then has no such key. *)
Definition outlet_record (o : Outlets.OutletInfo) : gmap string string :=
  let optional k v (d : gmap string string) :=
    match v with Some s => <[k := s]> d | None => d end in
  optional "address" (Outlets.address o)
    (optional "phone" (Outlets.phone o)
       (<["closing_time" := Outlets.closing_time o]>
          (<["opening_time" := Outlets.opening_time o]>
             (<["area" := Outlets.area o]>
                (<["location" := Outlets.location o]>
                   {[ "name" := Outlets.name o ]}))))).

(** Get formatted outlet data: every outlet of every area, in order. *)
Definition get_outlets_data (outlets : list (string * list Outlets.OutletInfo))
  : list (gmap string string) :=
  map outlet_record (concat (map snd outlets)).

(** [ConversationAgent.process_message_with_planner]: the reply of the
    [/chat] endpoint. As in the detailed variant, the store keeps the
    updates made before an exception. *)
Definition process_message_with_planner
           (agent : Main.ConversationAgent) (now : Z)
           (message session_id : string) (m : ConversationMemoryManager)
  : pyval * ConversationMemoryManager :=
  let fallback m :=
    let '(text, m) := Main.process_message agent now message session_id m in
    (VStr text, m) in
  let session_context : gmap string pyval :=
    <["specific_location" := get_context session_id "specific_location" m]>
      {[ "area" := get_context session_id "area" m ]} in
  match Planner.process_message (Main.tool_executor agent) message
                                session_context with
  | Raise e => fallback m
  | Ok planner_result =>
      let m :=
        Main.apply_context_updates now session_id
          (Planner.context_updates planner_result) m in
      let action := Planner.result_action planner_result in
      let from_key (k : string) :=
        match Planner.getitem (Planner.parameters action) k with
        | Ok text => (text, m)
        | Raise e => fallback m
        end in
      match Planner.action_type action with
      | Planner.ASK_CLARIFICATION => from_key "question"
      | Planner.PROVIDE_INFO
      | Planner.SEARCH_OUTLETS
      | Planner.CALCULATE
      | Planner.FINISH => from_key "message"
      | _ => fallback m
      end
  end.

(** The values one request draws: the UUID and clock of
    [get_or_create_session], the clock of the planner path, and the UUID and
    clock of [add_turn]. *)
Record Draws := {
  session_uuid : string;
  session_now : Z;
  planner_now : Z;
  turn_uuid : string;
  turn_now : Z
}.

Record ChatResponse := {
  response : string;
  session_id : string;
  turn_number : Z;
  context_updated : bool
}.

(** The [/chat] endpoint on a validated request. [None] stands for the
    [HTTPException] with status 500 of its [except] branch: a reply that is
    not a string fails the validation of the turn. *)
Definition chat (agent : Main.ConversationAgent) (d : Draws)
           (message : string) (request_session_id : option string)
           (m : ConversationMemoryManager)
  : option ChatResponse * ConversationMemoryManager :=
  let '(session_id, m) :=
    get_or_create_session request_session_id (session_uuid d) (session_now d) m in
  let '(reply, m) :=
    process_message_with_planner agent (planner_now d) message session_id m in
  match reply with
  | VStr response =>
      let m := add_turn (turn_uuid d) (turn_now d) session_id message response m in
      let history := get_conversation_history session_id m in
      (Some {| response := response; session_id := session_id;
               turn_number := Z.of_nat (length history);
               context_updated := true |}, m)
  | _ => (None, m)
  end.

(** [ChatRequest.validate_message]: [None] stands for the [ValueError]
    'Message too long'. *)
Definition validate_message (v : string) : option string :=
  if Z.of_nat (String.length v) >? 10000 then None
  else Some (PyText.html_escape v).

End Chat.

(** ** main.py: the endpoints that answer with a status *)

Module Api.

Import Memory.

(** What an endpoint answers: the body of its return, or the status code
    of the [HTTPException] it raises. *)
Inductive answer (A : Type) :=
| Sent (body : A)
| HTTPException (status_code : Z).

Arguments Sent {A} body.
Arguments HTTPException {A} status_code.

(** [except Exception as e: raise HTTPException(status_code=500, ...)]
    around the body of a [try]. [HTTPException] derives from [Exception],
    so one raised in the body is caught as well. *)
Definition except_exception {A} (body : answer A) : answer A :=
  match body with
  | Sent b => Sent b
  | HTTPException _ => HTTPException 500
  end.

(** [DELETE /session/{session_id}]; the body stands for its one field
    [message]. *)
Definition clear_session (session_id : string) (m : ConversationMemoryManager)
  : answer string * ConversationMemoryManager :=
  let '(success, m) := Memory.clear_session session_id m in
  (except_exception
     (if success then Sent "Session cleared successfully"
      else HTTPException 404),
   m).

(** [GET /outlets/{area}]. *)
Definition get_outlets_by_area
           (outlets : list (string * list Outlets.OutletInfo)) (area : string)
  : answer (list Outlets.OutletInfo) :=
  except_exception
    (match Outlets.find_outlets_by_area outlets area with
     | [] => HTTPException 404
     | found => Sent found
     end).

End Api.

(** * Vocabulary of the properties *)

Import Planner.

(** The message as the cascade sees it: lower-cased, then trimmed. *)
Definition normalized (message : string) : string :=
  Py.strip (Py.lower message).

(** The text is longer than [int()] and [str()] accept. *)
Definition over_long (s : string) : Prop :=
  Py.int_max_str_digits < Z.of_nat (String.length s).

(** A run of digits the classifier converts is over-long: the forecast
    duration, or an operand of the arithmetic expression. *)
Definition over_long_digits (message : string) : Prop :=
  (exists m,
      Re.search forecast_days_pattern (normalized message) = Some m
      /\ over_long (Re.group m 1))
  \/ (exists m,
         Re.search math_pattern message = Some m
         /\ (over_long (Re.group m 1) \/ over_long (Re.group m 3))).

(** The captured texts are at most [n] characters long. *)
Definition captures_within (n : nat) (caps : Re.captures) : Prop :=
  Forall (fun p => (String.length (snd p) <= n)%nat) caps.

(** A successful run of the matcher ends in a call of its continuation, on
    a rest that is not longer than the input and with captures that are
    not longer than [n]. *)
Definition reaches {R : Type} (n : nat) (kont : Re.cont (R := R))
           (s : string) (res : R) : Prop :=
  exists prev' s' caps',
    kont prev' s' caps' = Some res
    /\ (String.length s' <= String.length s)%nat
    /\ captures_within n caps'.

(** A run of [n] digits 1. *)
Fixpoint digit_run (n : nat) : string :=
  match n with
  | O => ""
  | S n' => String "1" (digit_run n')
  end.

(** A request for a forecast over a number of days written with 4301
    digits. *)
Definition long_forecast_request : string :=
  digit_run (Z.to_nat 4301) ++ " day forecast".

(** The entities extracted before the intent is chosen, once the forecast
    duration is converted. *)
Definition extracted (message : string) : gmap string pyval :=
  set_found "forecast_days"
    ((fun m => VInt (Py.int_of_digits (Re.group m 1)))
       <$> Re.search forecast_days_pattern (normalized message))
    (set_found "weather_location"
       (VStr <$> first_match malaysia_cities (normalized message))
       (set_found "location"
          (VStr <$> first_match location_patterns (normalized message)) ∅)).

(** The nine action types of the specification's [PlannedAction]. *)
Definition defined_variants : list ActionType :=
  [ASK_CLARIFICATION; SEARCH_OUTLETS; CALCULATE; GET_WEATHER; GET_FORECAST;
   SEARCH_PRODUCTS; SEARCH_OUTLETS_NL; PROVIDE_INFO; FINISH].

(** The weather terms the classifier treats as maximally vague. *)
Definition vague_weather_terms : list string :=
  ["weather"; "temperature"; "temp"; "climate"].

(** The location of an hours inquiry cannot be resolved: no location entity
    in the message, and neither [area] nor [last_outlet_mentioned] in the
    context. *)
Definition hours_unresolvable
           (pi : ParsedIntent) (session_context : gmap string pyval) : bool :=
  negb (dict_has (entities pi) "location")
  && negb (truthy (dict_get session_context "area"))
  && negb (truthy (dict_get session_context "last_outlet_mentioned")).

(** The parameters of the deferred call, by the priority of the
    specification: explicit entity, then [last_outlet_mentioned], then
    [specific_location], then [area]. *)
Definition resolved_hours_params
           (pi : ParsedIntent) (session_context : gmap string pyval)
  : gmap string pyval :=
  match entities pi !! "location" with
  | Some location => {[ "location" := location ]}
  | None =>
      if truthy (dict_get session_context "last_outlet_mentioned") then
        {[ "location" := dict_get session_context "last_outlet_mentioned" ]}
      else if truthy (dict_get session_context "specific_location") then
        {[ "location" := dict_get session_context "specific_location" ]}
      else {[ "area" := dict_get session_context "area" ]}
  end.

(** The operands of "5 + 3" as the classifier stores them. *)
Definition five_plus_three : gmap string pyval :=
  {[ "operand1" := VInt 5; "operator" := VStr "+"; "operand2" := VInt 3 ]}.





Section StoreVocabulary.

Import Memory.

(** Every session holds at most [w] turns. *)
Definition turns_bounded (w : nat) (m : ConversationMemoryManager) : Prop :=
  map_Forall (fun _ session => (length (turns session) <= w)%nat) (sessions m).

(** The last [w] elements of a list. *)
Definition most_recent {A} (w : nat) (l : list A) : list A :=
  drop (length l - w) l.

(** Twelve turns added to one session: the two oldest are gone. *)
Definition twelve_turns : list mutation :=
  CreateSession "u1" 0
  :: map (fun i => AddTurn "u2" (Z.of_nat i) "u1" "hi" "hello") (seq 1 12).

(** The session [create_session] registers. *)
Definition fresh_session (uuid : string) (now : Z) : ConversationSession :=
  {| session_id := uuid; turns := []; context := ∅;
     created_at := now; last_updated := now |}.

Definition hex_digit (c : ascii) : bool :=
  Py.between 48 57 c || Py.between 97 102 c.

(** The form of [str(uuid.uuid4())]: 32 lower-case hexadecimal digits in
    groups of 8, 4, 4, 4 and 12 joined by hyphens, the third group starting
    with the version 4 and the fourth with a variant digit 8, 9, a or b. *)
Definition uuid4_text (s : string) : bool :=
  (String.length s =? 36)%nat
  && forallb
       (fun '(i, c) =>
          if (i =? 8)%nat || (i =? 13)%nat || (i =? 18)%nat || (i =? 23)%nat
          then Ascii.eqb c "-"
          else if (i =? 14)%nat then Ascii.eqb c "4"
          else if (i =? 19)%nat
               then existsb (Ascii.eqb c) ["8"; "9"; "a"; "b"]%char
               else hex_digit c)
       (combine (seq 0 36) (list_ascii_of_string s)).

(** A well-formed UUID4 text. *)
Definition sample_uuid : string := "3f2b8c1e-9d4a-4c6b-8e2f-1a2b3c4d5e6f".

End StoreVocabulary.

(** * Vocabulary of the further properties *)

Section StoreVocabulary2.

Import Memory.

(** The mutation removes the session [session_id], or registers a new
    session under a generated UUID that is [session_id]. *)
Definition replaces_session (op : mutation) (session_id : string) : bool :=
  match op with
  | CreateSession uuid _ => String.eqb uuid session_id
  | GetOrCreateSession _ uuid _ => String.eqb uuid session_id
  | AddTurn uuid _ _ _ _ => String.eqb uuid session_id
  | UpdateContext _ _ _ _ => false
  | ClearSession sid => String.eqb sid session_id
  end.

(** Every stored turn carries a number between 1 and [w + 1]. *)
Definition turn_numbers_bounded (w : Z) (m : ConversationMemoryManager) : Prop :=
  map_Forall
    (fun _ session =>
       Forall (fun turn => 1 <= turn_number turn <= w + 1) (turns session))
    (sessions m).

End StoreVocabulary2.

(** The specific locations [process_message] and
    [extract_location_context] remember, each with its area. *)
Definition location_table : list (string * string) :=
  [("ss 2", "petaling_jaya"); ("ss 15", "petaling_jaya");
   ("damansara utama", "petaling_jaya");
   ("klcc", "kuala_lumpur"); ("bukit bintang", "kuala_lumpur")].

(** A value is a string or [None]. *)
Definition text_or_none (v : pyval) : Prop :=
  v = VNone \/ exists s, v = VStr s.

(** A record of the outlet catalogue has the keys the executor reads. *)
Definition readable_outlet (o : gmap string string) : Prop :=
  Forall (fun k => is_Some (o !! k))
         ["name"; "location"; "area"; "opening_time"; "closing_time"].

(** The location entity of a classified intent is a string. *)
Definition location_is_text (pi : ParsedIntent) : Prop :=
  forall v, entities pi !! "location" = Some v -> exists s, v = VStr s.

(** The operands of a calculation with nothing missing are an integer, a
    string and an integer. *)
Definition operands_typed (pi : ParsedIntent) : Prop :=
  intent pi = CALCULATION -> missing_info pi = [] ->
  exists a op b,
    entities pi !! "operand1" = Some (VInt a)
    /\ entities pi !! "operator" = Some (VStr op)
    /\ entities pi !! "operand2" = Some (VInt b).

(** The parameter the agent reads its reply from, by action type; [None]
    for the types whose reply comes from the language model. *)
Definition reply_key (t : ActionType) : option string :=
  match t with
  | ASK_CLARIFICATION => Some "question"
  | PROVIDE_INFO | SEARCH_OUTLETS | CALCULATE | FINISH
  | GET_WEATHER | GET_FORECAST => Some "message"
  | _ => None
  end.

(** The action carries a string under the key its reply is read from. *)
Definition replies_text (a : PlannedAction) : Prop :=
  forall k, reply_key (action_type a) = Some k ->
            exists s, parameters a !! k = Some (VStr s).

(** An executor over the catalogue of [outlets.py], with tools that answer
    nothing. *)
Definition catalogue_executor : ToolExecutor :=
  {| outlets_data := Some (Chat.get_outlets_data Outlets.OUTLETS_DATA);
     get_current_weather := fun _ => "";
     get_weather_forecast := fun _ _ => "";
     search_products := fun _ => "";
     search_outlets_nl := fun _ => "";
     true_division_text := fun _ _ => None;
     calculation_on_other_types := fun _ _ _ => "" |}.

(** An agent over the catalogue whose language model answers "hello". *)
Definition catalogue_agent : Main.ConversationAgent :=
  {| Main.tool_executor := catalogue_executor;
     Main.chat_completion := fun _ _ _ => inl "hello" |}.

(** The second store has the window and, session by session, the turns of
    the first. *)
Definition keeps_turns (m m' : Memory.ConversationMemoryManager) : Prop :=
  Memory.window_size m' = Memory.window_size m
  /\ forall session_id,
      Memory.turns <$> (Memory.sessions m' !! session_id)
      = Memory.turns <$> (Memory.sessions m !! session_id).

(** The character occurs in the string. *)
Fixpoint occurs (c : ascii) (s : string) : bool :=
  match s with
  | EmptyString => false
  | String a s' => Ascii.eqb a c || occurs c s'
  end.

(** The characters [html.escape] replaces, apart from the ampersand. *)
Definition markup_characters : list ascii :=
  ["<"%char; ">"%char; PyText.dquote; "'"%char].

(** * Properties *)

(** ** Strings *)

Lemma isspace_lower_char_space (c : ascii) :
  Py.isspace (Py.lower_char c) = Py.isspace c.
Proof. destruct c as [[] [] [] [] [] [] [] []]; reflexivity. Qed.

Lemma lstrip_all_space (s : string) :
  Py.all_space s = true -> Py.lstrip s = "".
Proof.
  induction s as [|c s IH]; [reflexivity|].
  cbn [Py.all_space Py.lstrip]. intros [Hc Hs]%andb_prop.
  rewrite Hc. auto.
Qed.

Lemma all_space_lower (s : string) :
  Py.all_space (Py.lower s) = Py.all_space s.
Proof.
  induction s as [|c s IH]; [reflexivity|].
  cbn [Py.lower Py.all_space]. by rewrite isspace_lower_char_space, IH.
Qed.

Lemma strip_all_space (s : string) :
  Py.all_space s = true -> Py.strip (Py.lower s) = "".
Proof.
  intros H. unfold Py.strip.
  rewrite lstrip_all_space; [reflexivity|]. by rewrite all_space_lower.
Qed.

(** [rstrip] keeps a leading character that is not whitespace. *)
Lemma rstrip_cons_nonspace (c : ascii) (s : string) :
  Py.isspace c = false -> exists r, Py.rstrip (String c s) = String c r.
Proof.
  intros Hc. cbn [Py.rstrip]. destruct (Py.rstrip s); rewrite ?Hc; eauto.
Qed.

Lemma lstrip_head (s : string) :
  Py.lstrip s = "" \/
  exists c t, Py.lstrip s = String c t /\ Py.isspace c = false.
Proof.
  induction s as [|c s IH]; [by left|].
  cbn [Py.lstrip]. destruct (Py.isspace c) eqn:Hc; [exact IH|].
  right. eauto.
Qed.

Lemma rstrip_idempotent (s : string) : Py.rstrip (Py.rstrip s) = Py.rstrip s.
Proof.
  induction s as [|c s IH]; [reflexivity|].
  cbn [Py.rstrip]. destruct (Py.rstrip s) as [|d r] eqn:Hr.
  - destruct (Py.isspace c) eqn:Hc; [reflexivity|].
    cbn [Py.rstrip]. by rewrite Hc.
  - change (Py.rstrip (String c (String d r))) with
      (match Py.rstrip (String d r) with
       | EmptyString => if Py.isspace c then EmptyString else String c EmptyString
       | q => String c q
       end).
    by rewrite IH.
Qed.

(** Trimming a trimmed string changes nothing. *)
Lemma strip_idempotent (s : string) : Py.strip (Py.strip s) = Py.strip s.
Proof.
  unfold Py.strip.
  destruct (lstrip_head s) as [->|(c & t & -> & Hc)]; [reflexivity|].
  destruct (rstrip_cons_nonspace c t Hc) as [r Hr].
  rewrite Hr. assert (Py.lstrip (String c r) = String c r) as ->.
  { cbn [Py.lstrip]. by rewrite Hc. }
  by rewrite <- Hr, rstrip_idempotent.
Qed.

(** ** The length of what a pattern captures *)

Lemma length_substring_0 (n : nat) (s : string) :
  (String.length (String.substring 0 n s) <= String.length s)%nat.
Proof.
  revert n. induction s as [|c s IH]; intros [|n]; cbn; try lia.
  specialize (IH n). lia.
Qed.

Lemma length_consumed (s rest : string) :
  (String.length (Re.consumed s rest) <= String.length s)%nat.
Proof. apply length_substring_0. Qed.

Section MatcherLengths.

Context {R : Type}.

Lemma star_reaches (n : nat) (k : Re.cls) (s : string) :
  forall prev caps kont res,
    Re.star k prev s caps kont = Some res ->
    captures_within n caps ->
    reaches (R := R) n kont s res.
Proof.
  induction s as [|c s IH]; intros prev caps kont res H Hcaps;
    cbn [Re.star] in H.
  - exists prev, "", caps. auto.
  - destruct (Re.cls_match k c).
    + destruct (Re.star k (Some c) s caps kont) as [r|] eqn:Hs.
      * injection H as <-.
        destruct (IH _ _ _ _ Hs Hcaps) as (p' & s' & c' & H1 & H2 & H3).
        exists p', s', c'. cbn [String.length]. split; [exact H1|].
        split; [lia|exact H3].
      * exists prev, (String c s), caps. auto.
    + exists prev, (String c s), caps. auto.
Qed.

Lemma run_reaches (n : nat) (r : Re.regex) :
  forall prev s caps kont res,
    Re.run r prev s caps kont = Some res ->
    (String.length s <= n)%nat ->
    captures_within n caps ->
    reaches (R := R) n kont s res.
Proof.
  induction r as [|k|k|k|k| |r1 IH1 r2 IH2|r1 IH1 r2 IH2|i r1 IH1];
    intros prev s caps kont res H Hlen Hcaps; cbn [Re.run] in H.
  - exists prev, s, caps. auto.
  - destruct s as [|c s]; [discriminate H|].
    destruct (Re.cls_match k c); [|discriminate H].
    exists (Some c), s, caps. cbn [String.length]. auto with lia.
  - destruct s as [|c s]; [exists prev, "", caps; auto|].
    destruct (Re.cls_match k c); [|exists prev, (String c s), caps; auto].
    destruct (kont (Some c) s caps) as [x|] eqn:Hk.
    + injection H as <-. exists (Some c), s, caps.
      cbn [String.length]. auto with lia.
    + exists prev, (String c s), caps. auto.
  - eapply star_reaches; eassumption.
  - destruct s as [|c s]; [discriminate H|].
    destruct (Re.cls_match k c); [|discriminate H].
    destruct (star_reaches n _ _ _ _ _ _ H Hcaps) as (p' & s' & c' & H1 & H2 & H3).
    exists p', s', c'. cbn [String.length]. auto with lia.
  - destruct (xorb _ _); [|discriminate H]. exists prev, s, caps. auto.
  - destruct (IH1 _ _ _ _ _ H Hlen Hcaps) as (p' & s' & c' & H1 & H2 & H3).
    destruct (IH2 _ _ _ _ _ H1 ltac:(lia) H3) as (p2 & s2 & c2 & G1 & G2 & G3).
    exists p2, s2, c2. auto with lia.
  - destruct (Re.run r1 prev s caps kont) as [x|] eqn:H1.
    + injection H as <-. eapply IH1; eassumption.
    + eapply IH2; eassumption.
  - destruct (IH1 _ _ _ _ _ H Hlen Hcaps) as (p' & s' & c' & H1 & H2 & H3).
    exists p', s', ((i, Re.consumed s s') :: c'). split; [exact H1|].
    split; [exact H2|]. apply Forall_cons. split; [|exact H3].
    cbn [snd]. pose proof (length_consumed s s'). lia.
Qed.

End MatcherLengths.

Lemma search_from_within (r : Re.regex) (s : string) :
  forall prev m,
    Re.search_from r prev s = Some m ->
    captures_within (String.length s) (Re.groups m).
Proof.
  induction s as [|c s IH]; intros prev m H; cbn [Re.search_from] in H.
  - destruct (Re.match_here r prev "") as [m'|] eqn:Hm; [|discriminate H].
    injection H as <-. unfold Re.match_here in Hm.
    destruct (run_reaches 0 r _ _ _ _ _ Hm (le_n _) (Forall_nil_2 _))
      as (p' & s' & c' & H1 & _ & H3).
    injection H1 as <-. exact H3.
  - destruct (Re.match_here r prev (String c s)) as [m'|] eqn:Hm.
    + injection H as <-. unfold Re.match_here in Hm.
      destruct (run_reaches _ r _ _ _ _ _ Hm (le_n _) (Forall_nil_2 _))
        as (p' & s' & c' & H1 & _ & H3).
      injection H1 as <-. exact H3.
    + specialize (IH _ _ H). cbn [String.length].
      eapply Forall_impl; [exact IH|]. cbn beta. intros p Hp. lia.
Qed.

(** A group of a match is not longer than the text searched. *)
Lemma length_group (pattern s : string) (m : Re.Match) (i : nat) :
  Re.search pattern s = Some m ->
  (String.length (Re.group m i) <= String.length s)%nat.
Proof.
  unfold Re.search. destruct (Re.parse pattern) as [r|]; [|discriminate].
  cbn. intros H. apply search_from_within in H.
  unfold Re.group.
  destruct (find _ (Re.groups m)) as [p|] eqn:Hf; [|cbn; lia].
  apply find_some in Hf as [Hin _]. apply list_elem_of_In in Hin.
  unfold captures_within in H. rewrite Forall_forall in H.
  exact (H p Hin).
Qed.

Lemma length_lower (s : string) :
  String.length (Py.lower s) = String.length s.
Proof. induction s as [|c s IH]; cbn; [reflexivity|by rewrite IH]. Qed.

Lemma length_lstrip (s : string) :
  (String.length (Py.lstrip s) <= String.length s)%nat.
Proof.
  induction s as [|c s IH]; cbn [Py.lstrip]; [lia|].
  destruct (Py.isspace c); cbn [String.length]; lia.
Qed.

Lemma length_rstrip (s : string) :
  (String.length (Py.rstrip s) <= String.length s)%nat.
Proof.
  induction s as [|c s IH]; cbn [Py.rstrip]; [lia|].
  destruct (Py.rstrip s); [destruct (Py.isspace c)|];
    cbn [String.length] in *; lia.
Qed.

Lemma length_normalized (message : string) :
  (String.length (normalized message) <= String.length message)%nat.
Proof.
  unfold normalized, Py.strip.
  pose proof (length_rstrip (Py.lstrip (Py.lower message))).
  pose proof (length_lstrip (Py.lower message)).
  rewrite length_lower in *. lia.
Qed.

(** A message within the limit of [int()] has no over-long run of
    digits. *)
Lemma short_message_digits (message : string) :
  Z.of_nat (String.length message) <= Py.int_max_str_digits ->
  ~ over_long_digits message.
Proof.
  intros Hshort. pose proof (length_normalized message) as Hn.
  unfold over_long_digits, over_long.
  intros [(m & Hm & Hlong)|(m & Hm & [Hlong|Hlong])].
  - pose proof (length_group _ _ _ 1%nat Hm). lia.
  - pose proof (length_group _ _ _ 1%nat Hm). lia.
  - pose proof (length_group _ _ _ 3%nat Hm). lia.
Qed.

(** ** The classifier *)

(** Every pattern of the classifier, alone or joined, is inside the
    fragment [Re.parse] compiles. *)
Lemma patterns_compile :
  forallb (fun p => bool_decide (is_Some (Re.parse p)))
          (forecast_days_pattern :: math_pattern
           :: (location_patterns ++ malaysia_cities
               ++ map (Py.join "|")
                    [greeting_patterns; goodbye_patterns; calculation_patterns;
                     weather_forecast_patterns; weather_current_patterns;
                     product_patterns; advanced_outlet_patterns])%list)
  = true.
Proof. vm_compute. reflexivity. Qed.

Lemma location_missing_some (entities ctx : gmap string pyval) :
  location_missing entities (Some ctx)
  = Ok (if dict_has entities "location" || truthy (dict_get ctx "area")
        then [] else ["location"]).
Proof.
  unfold location_missing.
  destruct (dict_has entities "location"); [reflexivity|].
  by destruct (truthy (dict_get ctx "area")).
Qed.

Ltac q_bounds := unfold Qle, Qlt; simpl; lia.

Ltac split_goal_if :=
  lazymatch goal with
  | |- context [if ?c then _ else _] => destruct c eqn:?
  | |- context [match ?c with Some _ => _ | None => _ end] => destruct c eqn:?
  end.

Lemma any_eqb_In (s : string) (l : list string) :
  Py.any (fun term => String.eqb term s) l = true <-> In s l.
Proof.
  unfold Py.any. rewrite existsb_exists. split.
  - intros (y & Hy & ->%String.eqb_eq). exact Hy.
  - intros H. exists s. split; [exact H | apply String.eqb_refl].
Qed.

Lemma dict_has_lookup (d : gmap string pyval) (k : string) :
  dict_has d k = false <-> d !! k = None.
Proof.
  unfold dict_has. rewrite bool_decide_eq_false, <- eq_None_not_Some. tauto.
Qed.

Opaque any_pattern first_match Re.search Py.contains Py.any Py.str_in.

(** C9: the empty string and every whitespace-only string classify as
    [unclear] with confidence 0.0 and the non-empty [missing_info]
    [['message']], whatever the session context (also the default [None]). *)
Theorem classify_blank_unclear
        (message : string) (session_context : option (gmap string pyval)) :
  Py.all_space message = true ->
  classify_intent message session_context
  = Ok {| intent := UNCLEAR; entities := ∅;
          missing_info := ["message"]; confidence := 0.0 |}.
Proof.
  intros H. unfold classify_intent. by rewrite (strip_all_space _ H).
Qed.

Lemma classify_blank_unclear_witness :
  classify_intent (" " ++ String "009"%char " ") None
  = Ok {| intent := UNCLEAR; entities := ∅;
          missing_info := ["message"]; confidence := 0.0 |}.
Proof. apply classify_blank_unclear. reflexivity. Defined.

(** The conversion of a run of digits either gives the number it denotes
    or raises [ValueError] on an over-long run. *)
Lemma int_str_Ok (s : string) (z : Z) :
  Py.int_str s = Ok z -> z = Py.int_of_digits s.
Proof.
  unfold Py.int_str. destruct (_ >? _); intros H; [discriminate H|].
  by injection H.
Qed.

Lemma int_str_Raise (s : string) (e : exn) :
  Py.int_str s = Raise e -> e = ValueError /\ over_long s.
Proof.
  unfold Py.int_str, over_long.
  destruct (Z.gtb_spec (Z.of_nat (String.length s)) Py.int_max_str_digits)
    as [Hgt|Hle]; intros H; [|discriminate H].
  injection H as <-. split; [reflexivity|exact Hgt].
Qed.

Lemma int_str_over_long (s : string) :
  over_long s -> Py.int_str s = Raise ValueError.
Proof.
  unfold Py.int_str, over_long. intros H.
  destruct (Z.gtb_spec (Z.of_nat (String.length s)) Py.int_max_str_digits)
    as [Hgt|Hle]; [reflexivity|lia].
Qed.

Lemma forecast_days_Ok (s : string) (found : option pyval) :
  forecast_days s = Ok found ->
  found = (fun m => VInt (Py.int_of_digits (Re.group m 1)))
            <$> Re.search forecast_days_pattern s.
Proof.
  unfold forecast_days.
  destruct (Re.search forecast_days_pattern s) as [m|];
    [|intros [= <-]; reflexivity].
  destruct (Py.int_str (Re.group m 1)) as [z|e] eqn:Hz; cbn [rbind];
    intros H; [|discriminate H].
  injection H as <-. apply int_str_Ok in Hz. by subst z.
Qed.

Lemma forecast_days_Raise (s : string) (e : exn) :
  forecast_days s = Raise e ->
  e = ValueError
  /\ exists m, Re.search forecast_days_pattern s = Some m
               /\ over_long (Re.group m 1).
Proof.
  unfold forecast_days.
  destruct (Re.search forecast_days_pattern s) as [m|];
    [|intros H; discriminate H].
  destruct (Py.int_str (Re.group m 1)) as [z|e'] eqn:Hz; cbn [rbind];
    intros H; [discriminate H|].
  injection H as <-. apply int_str_Raise in Hz as [-> Hlong]. eauto.
Qed.

Ltac split_goal_result :=
  lazymatch goal with
  | |- context [match ?c with Ok _ => _ | Raise _ => _ end] => destruct c eqn:?
  end.

(** One goal per path through [classify_intent]; on the paths where the
    conversions return, the entities are those of [extracted] and the
    operands the numbers their digits denote. *)
Ltac classify_goal message :=
  unfold classify_intent;
  cbv beta iota zeta delta [rbind];
  fold (normalized message);
  destruct (forecast_days (normalized message))
    as [found_days|raised] eqn:Hforecast;
    [apply forecast_days_Ok in Hforecast; subst found_days;
     fold (extracted message);
     rewrite ?location_missing_some; cbv beta iota|];
  repeat first [split_goal_if | split_goal_result];
  repeat match goal with
         | H : Py.int_str _ = Ok ?z |- _ => apply int_str_Ok in H; subst z
         end.

(** [classify_intent] returns with a confidence in [0, 1], or raises the
    [ValueError] of an over-long run of digits. *)
Lemma classify_intent_cases
      (message : string) (session_context : gmap string pyval) :
  (exists pi, classify_intent message (Some session_context) = Ok pi
              /\ (0 <= confidence pi)%Q /\ (confidence pi <= 1)%Q)
  \/ (classify_intent message (Some session_context) = Raise ValueError
      /\ over_long_digits message).
Proof.
  classify_goal message;
    try (left; eexists; split; [reflexivity|]; cbn [confidence]; split;
         q_bounds);
    right.
  all: try (apply forecast_days_Raise in Hforecast as (-> & m & Hm & Hlong);
            split; [reflexivity|]; left; eauto).
  all: match goal with
       | H : Py.int_str _ = Raise _ |- _ =>
           apply int_str_Raise in H as [-> Hlong]
       end;
    split; [reflexivity|]; right; eexists; (split; [eassumption|]);
    first [left; assumption | right; assumption].
Qed.

(** C4, amended: on every message and every session context mapping
    [classify_intent] returns with a confidence in [0, 1] or raises
    [ValueError]; it raises only when a run of digits it converts is
    over-long, hence on no message of at most 4300 characters, and it does
    raise on every non-blank message whose forecast duration is such a
    run. *)
Theorem classify_total_confidence
        (message : string) (session_context : gmap string pyval) :
  ((exists pi, classify_intent message (Some session_context) = Ok pi
               /\ (0 <= confidence pi)%Q /\ (confidence pi <= 1)%Q)
   \/ (classify_intent message (Some session_context) = Raise ValueError
       /\ over_long_digits message))
  /\ (Z.of_nat (String.length message) <= Py.int_max_str_digits ->
      exists pi, classify_intent message (Some session_context) = Ok pi
                 /\ (0 <= confidence pi)%Q /\ (confidence pi <= 1)%Q)
  /\ (normalized message <> "" ->
      (exists m,
          Re.search forecast_days_pattern (normalized message) = Some m
          /\ over_long (Re.group m 1)) ->
      classify_intent message (Some session_context) = Raise ValueError).
Proof.
  split; [apply classify_intent_cases|]. split.
  - intros Hshort.
    destruct (classify_intent_cases message session_context)
      as [Hok|[_ Hlong]]; [exact Hok|].
    by destruct (short_message_digits message Hshort).
  - intros Hblank (m & Hm & Hlong).
    unfold classify_intent. fold (normalized message).
    apply String.eqb_neq in Hblank. rewrite Hblank.
    unfold forecast_days. rewrite Hm, (int_str_over_long _ Hlong).
    reflexivity.
Qed.

Lemma classify_total_confidence_witness :
  exists pi, classify_intent "hello" (Some ∅) = Ok pi
             /\ (0 <= confidence pi)%Q /\ (confidence pi <= 1)%Q.
Proof.
  apply (proj1 (proj2 (classify_total_confidence "hello" ∅))).
  vm_compute. discriminate.
Defined.

(** C4 as stated fails: a forecast request whose number of days is written
    with 4301 digits makes [classify_intent] raise. *)
Lemma long_forecast_request_raises :
  classify_intent long_forecast_request (Some ∅) = Raise ValueError.
Proof. vm_compute. reflexivity. Qed.

(** The default argument [session_context=None] is outside the domain of
    the classifier's contract: on it the hours branch raises. *)
Lemma classify_default_context_raises :
  classify_intent "what time" None = Raise AttributeError.
Proof. vm_compute. reflexivity. Qed.

(** ** The planner *)

(** C5: whatever [classify_intent] produces, [plan_action] answers with one
    of the nine defined action types, for every session context. *)
Theorem plan_action_total
        (message : string) (classify_context plan_context : gmap string pyval)
        (pi : ParsedIntent) :
  classify_intent message (Some classify_context) = Ok pi ->
  In (action_type (plan_action pi plan_context)) defined_variants.
Proof.
  intros _. unfold plan_action.
  destruct (intent pi); repeat split_goal_if;
    try destruct (missing_info pi);
    cbn [action_type defined_variants In]; tauto.
Qed.

Lemma plan_action_total_witness :
  In (action_type
        (plan_action {| intent := GREETING; entities := ∅;
                        missing_info := []; confidence := 0.9 |} ∅))
     defined_variants.
Proof.
  apply (plan_action_total "hello" ∅ ∅).
  vm_compute. reflexivity.
Defined.

(** C1, as the code has it: with [area = "kuala_lumpur"] in the context,
    "what's the address?" classifies as a location inquiry with nothing
    missing, and [plan_action], which has no branch for that intent, answers
    with the fallback clarification request. *)
Theorem address_inquiry_gets_fallback_clarification :
  let session_context : gmap string pyval :=
    {[ "area" := VStr "kuala_lumpur" ]} in
  exists pi,
    classify_intent "what's the address?" (Some session_context) = Ok pi
    /\ intent pi = LOCATION_INQUIRY
    /\ entities pi !! "location" = None
    /\ missing_info pi = []
    /\ action_type (plan_action pi session_context) = ASK_CLARIFICATION
    /\ reasoning (plan_action pi session_context)
       = "Fallback action for unhandled intents".
Proof.
  exists {| intent := LOCATION_INQUIRY; entities := ∅;
            missing_info := []; confidence := 0.8 |}.
  repeat split; vm_compute; reflexivity.
Qed.

(** The sibling branch: the same follow-up about opening hours is resolved
    from the stored [area]. *)
Lemma hours_inquiry_uses_stored_area :
  let session_context : gmap string pyval :=
    {[ "area" := VStr "kuala_lumpur" ]} in
  exists pi,
    classify_intent "what are the opening hours?" (Some session_context) = Ok pi
    /\ intent pi = HOURS_INQUIRY
    /\ action_type (plan_action pi session_context) = PROVIDE_INFO
    /\ parameters (plan_action pi session_context) !! "tool_params"
       = Some (VDict {[ "area" := VStr "kuala_lumpur" ]}).
Proof.
  exists {| intent := HOURS_INQUIRY; entities := ∅;
            missing_info := []; confidence := 0.8 |}.
  repeat split; vm_compute; reflexivity.
Qed.

(** C3, amended: for a message that classifies as [weather_current] with no
    weather-location match, [missing_info] contains [location] exactly when
    the message, as the classifier reads it, is one of the vague weather
    terms, and only then is the confidence lowered, to 0.6; otherwise
    nothing is missing, the confidence stays at the base 0.8, and
    [plan_action] fetches the weather of the default city. *)
Theorem weather_current_location_policy
        (message : string) (session_context : gmap string pyval)
        (pi : ParsedIntent) :
  classify_intent message (Some session_context) = Ok pi ->
  intent pi = WEATHER_CURRENT ->
  entities pi !! "weather_location" = None ->
  (In "location" (missing_info pi)
   <-> In (normalized message) vague_weather_terms)
  /\ (In (normalized message) vague_weather_terms ->
      missing_info pi = ["location"] /\ confidence pi = 0.6%Q)
  /\ (~ In (normalized message) vague_weather_terms ->
      missing_info pi = []
      /\ confidence pi = 0.8%Q
      /\ forall plan_context,
          plan_action pi plan_context
          = {| action_type := GET_WEATHER;
               parameters := {[ "location" := VStr "Kuala Lumpur, Malaysia" ]};
               reasoning := "User wants current weather information";
               required_tools := ["weather_api"] |}).
Proof.
  classify_goal message; intros [= <-]; cbn [intent]; intros Hi;
    try (discriminate Hi); clear Hi;
    intros Hw; cbn [entities missing_info confidence] in *.
  - (* the vague branch *)
    match goal with
    | Hb : _ && _ = true |- _ => apply andb_prop in Hb as [_ Hv]
    end.
    unfold normalized in Hv at 1. rewrite strip_idempotent in Hv.
    apply any_eqb_In in Hv. fold (normalized message) in Hv.
    split; [split; [intros _; exact Hv | intros _; by left]|].
    split; [intros _; split; reflexivity|].
    intros Hn. by destruct Hn.
  - match goal with
    | Hb : _ && _ = false |- _ => apply andb_false_iff in Hb as [Hc|Hc]
    end.
    + apply negb_false_iff in Hc. apply dict_has_lookup in Hw. congruence.
    + assert (~ In (normalized message) vague_weather_terms) as Hn.
      { intros Hin. apply any_eqb_In in Hin.
        unfold normalized in Hc at 1. rewrite strip_idempotent in Hc.
        fold (normalized message) in Hc.
        unfold vague_weather_terms in Hin. congruence. }
      split; [split; [intros [] | intros Hin; by destruct Hn]|].
      split; [intros Hin; by destruct Hn|].
      intros _. repeat split. intros plan_context.
      unfold plan_action. cbn [intent missing_info entities].
      assert (Py.str_in "location" [] = false) as -> by reflexivity.
      unfold dict_get_or. by rewrite Hw.
Qed.

Lemma weather_current_location_policy_witness :
  exists pi,
    classify_intent "weather in tokyo" (Some ∅) = Ok pi
    /\ missing_info pi = [] /\ confidence pi = 0.8%Q.
Proof.
  exists {| intent := WEATHER_CURRENT; entities := ∅;
            missing_info := []; confidence := 0.8 |}.
  assert (classify_intent "weather in tokyo" (Some ∅)
          = Ok {| intent := WEATHER_CURRENT; entities := ∅;
                  missing_info := []; confidence := 0.8 |}) as Hc
    by (vm_compute; reflexivity).
  split; [exact Hc|].
  destruct (weather_current_location_policy "weather in tokyo" ∅ _ Hc
              eq_refl eq_refl) as (_ & _ & H).
  destruct H as (H1 & H2 & _); [|split; assumption].
  vm_compute. intros H. repeat (destruct H as [H|H]; [discriminate|]). exact H.
Defined.

(** C3 as stated fails: a weather question about a city outside the
    gazetteer is not given a confidence below the base 0.8. *)
Lemma unrecognized_city_confidence_not_lowered :
  ~ (forall message session_context pi,
        classify_intent message (Some session_context) = Ok pi ->
        intent pi = WEATHER_CURRENT ->
        entities pi !! "weather_location" = None ->
        ~ In (normalized message) vague_weather_terms ->
        (confidence pi < 0.8)%Q).
Proof.
  intros H.
  assert (classify_intent "weather in tokyo" (Some ∅)
          = Ok {| intent := WEATHER_CURRENT; entities := ∅;
                  missing_info := []; confidence := 0.8 |}) as Hc
    by (vm_compute; reflexivity).
  specialize (H "weather in tokyo" ∅ _ Hc eq_refl eq_refl).
  assert (~ In (normalized "weather in tokyo") vague_weather_terms) as Hn.
  { vm_compute. intros Hin.
    repeat (destruct Hin as [Hin|Hin]; [discriminate|]). exact Hin. }
  specialize (H Hn). vm_compute in H. discriminate H.
Qed.

Lemma str_in_location_nil : Py.str_in "location" [] = false.
Proof. reflexivity. Qed.

Lemma str_in_location_singleton : Py.str_in "location" ["location"] = true.
Proof. reflexivity. Qed.

Lemma dict_has_Some (d : gmap string pyval) (k : string) (v : pyval) :
  d !! k = Some v -> dict_has d k = true.
Proof. intros H. unfold dict_has. rewrite H. reflexivity. Qed.

(** The only branch of the cascade that yields an hours inquiry. *)
Lemma classify_hours_inv
      (message : string) (session_context : gmap string pyval)
      (pi : ParsedIntent) :
  classify_intent message (Some session_context) = Ok pi ->
  intent pi = HOURS_INQUIRY ->
  pi = {| intent := HOURS_INQUIRY;
          entities := extracted message;
          missing_info :=
            if dict_has (extracted message) "location"
               || truthy (dict_get session_context "area")
            then [] else ["location"];
          confidence := 0.8 |}.
Proof.
  classify_goal message; intros [= <-]; cbn [intent]; intros Hi;
    try (discriminate Hi); reflexivity.
Qed.

(** C6: for a message classified as an hours inquiry, [plan_action] asks for
    clarification when the location is unresolvable, and otherwise emits
    [provide_info] with the deferred call [get_hours_info] on the location
    resolved by priority; "SS 2, what's the opening time?" with an empty
    context yields the entity "ss 2" and the call
    [get_hours_info(location="ss 2")]. *)
Theorem hours_inquiry_plan :
  (forall message session_context pi,
      classify_intent message (Some session_context) = Ok pi ->
      intent pi = HOURS_INQUIRY ->
      let action := plan_action pi session_context in
      if hours_unresolvable pi session_context
      then action_type action = ASK_CLARIFICATION
      else action_type action = PROVIDE_INFO
           /\ parameters action
              = <["tool_params" :=
                    VDict (resolved_hours_params pi session_context)]>
                  {[ "tool_call" := VStr "get_hours_info" ]})
  /\ (exists pi,
         classify_intent "SS 2, what's the opening time?" (Some ∅) = Ok pi
         /\ intent pi = HOURS_INQUIRY
         /\ entities pi !! "location" = Some (VStr "ss 2")
         /\ action_type (plan_action pi ∅) = PROVIDE_INFO
         /\ parameters (plan_action pi ∅)
            = <["tool_params" := VDict {[ "location" := VStr "ss 2" ]}]>
                {[ "tool_call" := VStr "get_hours_info" ]}).
Proof.
  split.
  - intros message session_context pi H Hi.
    rewrite (classify_hours_inv _ _ _ H Hi). clear H Hi pi.
    unfold plan_action, hours_unresolvable, resolved_hours_params.
    cbn [intent entities missing_info].
    destruct (extracted message !! "location") as [location|] eqn:Hloc.
    + rewrite (dict_has_Some _ _ _ Hloc).
      cbn [orb negb andb]. rewrite str_in_location_nil.
      cbn [andb action_type parameters]. auto.
    + apply dict_has_lookup in Hloc as Hhas. rewrite Hhas.
      destruct (truthy (dict_get session_context "area")) eqn:Ha;
        destruct (truthy (dict_get session_context "last_outlet_mentioned"))
          eqn:Hl;
        destruct (truthy (dict_get session_context "specific_location"))
          eqn:Hs;
        cbn [orb negb andb];
        rewrite ?str_in_location_nil, ?str_in_location_singleton;
        cbn [andb action_type parameters]; rewrite ?Hloc; auto.
  - exists {| intent := HOURS_INQUIRY;
              entities := {[ "location" := VStr "ss 2" ]};
              missing_info := []; confidence := 0.8 |}.
    repeat split; vm_compute; reflexivity.
Qed.

Lemma hours_inquiry_plan_witness :
  action_type
    (plan_action {| intent := HOURS_INQUIRY; entities := ∅;
                    missing_info := ["location"]; confidence := 0.8 |} ∅)
  = ASK_CLARIFICATION.
Proof.
  refine (proj1 hours_inquiry_plan "when do you open?" ∅
            {| intent := HOURS_INQUIRY; entities := ∅;
               missing_info := ["location"]; confidence := 0.8 |} _ _).
  - vm_compute. reflexivity.
  - reflexivity.
Defined.

(** The branches of the cascade that yield a calculation: the expression
    was parsed from the message, or it is reported missing. *)
Lemma classify_calculation_inv
      (message : string) (session_context : gmap string pyval)
      (pi : ParsedIntent) :
  classify_intent message (Some session_context) = Ok pi ->
  intent pi = CALCULATION ->
  (exists m,
      Re.search math_pattern message = Some m
      /\ missing_info pi = []
      /\ entities pi
         = <["operand2" := VInt (Py.int_of_digits (Re.group m 3))]>
             (<["operator" := VStr (Re.group m 2)]>
                (<["operand1" := VInt (Py.int_of_digits (Re.group m 1))]>
                   (extracted message))))
  \/ missing_info pi = ["calculation_expression"].
Proof.
  classify_goal message; intros [= <-]; cbn [intent]; intros Hi;
    try (discriminate Hi); cbn [missing_info entities]; eauto.
Qed.

(** C7: for a classified calculation, a non-empty [missing_info] makes
    [plan_action] ask for clarification with a prompt that carries an
    example expression; otherwise the action is [calculate], its parameters
    carry the three operands parsed from the message and its tool is the
    calculator. For "5 + 3" the pipeline extracts
    [{operand1: 5, operator: '+', operand2: 3}] and the executor renders
    "5 + 3 = 8". *)
Theorem calculation_plan :
  (forall message session_context pi,
      classify_intent message (Some session_context) = Ok pi ->
      intent pi = CALCULATION ->
      let action := plan_action pi session_context in
      match missing_info pi with
      | _ :: _ =>
          action_type action = ASK_CLARIFICATION
          /\ exists question,
              parameters action !! "question" = Some (VStr question)
              /\ Py.contains "5 + 3" question = true
      | [] =>
          action_type action = CALCULATE
          /\ required_tools action = ["calculator"]
          /\ exists m,
              Re.search math_pattern message = Some m
              /\ parameters action !! "operand1"
                 = Some (VInt (Py.int_of_digits (Re.group m 1)))
              /\ parameters action !! "operator" = Some (VStr (Re.group m 2))
              /\ parameters action !! "operand2"
                 = Some (VInt (Py.int_of_digits (Re.group m 3)))
      end)
  /\ (forall te session_context,
         exists planner_result,
           process_message te "5 + 3" session_context = Ok planner_result
           /\ intent (result_intent planner_result) = CALCULATION
           /\ entities (result_intent planner_result) = five_plus_three
           /\ action_type (result_action planner_result) = CALCULATE
           /\ parameters (result_action planner_result) !! "message"
              = Some (VStr "5 + 3 = 8"))
  /\ (forall te, execute_calculation te 5 "+" 3 = "5 + 3 = 8").
Proof.
  split; [|split].
  - intros message session_context pi H Hi.
    destruct (classify_calculation_inv _ _ _ H Hi)
      as [(m & Hm & Hmissing & Hentities)|Hmissing];
      unfold plan_action; rewrite Hi, Hmissing; cbn [action_type parameters
                                                     required_tools].
    + split; [reflexivity|]. split; [reflexivity|].
      exists m. split; [exact Hm|]. rewrite Hentities.
      repeat split.
      * rewrite lookup_insert_ne by discriminate.
        rewrite lookup_insert_ne by discriminate.
        apply lookup_insert_eq.
      * rewrite lookup_insert_ne by discriminate. apply lookup_insert_eq.
      * apply lookup_insert_eq.
    + split; [reflexivity|]. eexists. split; [apply lookup_singleton_eq|].
      vm_compute. reflexivity.
  - intros te session_context.
    exists {| result_intent :=
                {| intent := CALCULATION; entities := five_plus_three;
                   missing_info := []; confidence := 0.8 |};
              result_action :=
                {| action_type := CALCULATE;
                   parameters :=
                     <["message" := VStr "5 + 3 = 8"]> five_plus_three;
                   reasoning :=
                     "User wants calculation and all parameters are available";
                   required_tools := ["calculator"] |};
              context_updates := ∅ |}.
    split; [vm_compute; reflexivity|].
    repeat split; vm_compute; reflexivity.
  - intros te. vm_compute. reflexivity.
Qed.

Lemma calculation_plan_witness :
  action_type
    (plan_action {| intent := CALCULATION; entities := ∅;
                    missing_info := ["calculation_expression"];
                    confidence := 0.6 |} ∅)
  = ASK_CLARIFICATION.
Proof.
  refine (proj1 (proj1 calculation_plan "Calculate" ∅
                   {| intent := CALCULATION; entities := ∅;
                      missing_info := ["calculation_expression"];
                      confidence := 0.6 |} _ _)).
  - vm_compute. reflexivity.
  - reflexivity.
Defined.

(** ** The orchestrator boundary *)





(** ** The session store *)

Section Store.

Import Memory.

Lemma length_most_recent {A} (w : nat) (l : list A) :
  (length (most_recent w l) <= w)%nat.
Proof. unfold most_recent. rewrite length_drop. lia. Qed.

(** Beyond the window, [turns[-window_size:]] is the last [window_size]
    turns. *)
Lemma slice_from_window {A} (w : Z) (l : list A) :
  0 < w -> Z.of_nat (length l) > w ->
  slice_from (- w) l = most_recent (Z.to_nat w) l.
Proof.
  intros Hw Hl. unfold slice_from, most_recent.
  destruct (- w <? 0) eqn:Hneg; [|apply Z.ltb_ge in Hneg; lia].
  f_equal. lia.
Qed.

(** What [add_turn] leaves in the list of a session, for a positive
    window. *)
Lemma trim_most_recent {A} (w : Z) (l : list A) :
  0 < w ->
  (if Z.of_nat (length l) >? w then slice_from (- w) l else l)
  = most_recent (Z.to_nat w) l.
Proof.
  intros Hw. destruct (Z.of_nat (length l) >? w) eqn:Hgt.
  - apply slice_from_window; lia.
  - unfold most_recent.
    replace (length l - Z.to_nat w)%nat with 0%nat by lia. reflexivity.
Qed.

Lemma window_size_apply (op : mutation) (m : ConversationMemoryManager) :
  window_size (apply op m) = window_size m.
Proof.
  destruct op as [uuid now|[sid|] uuid now|uuid now sid um br|now sid k v|sid];
    cbn [apply]; unfold get_or_create_session, add_turn, update_context,
                 clear_session, create_session;
    repeat case_match; simplify_eq; reflexivity.
Qed.

Lemma create_session_bounded (w : nat) (uuid : string) (now : Z)
      (m : ConversationMemoryManager) :
  turns_bounded w m -> turns_bounded w (snd (create_session uuid now m)).
Proof.
  intros H. unfold turns_bounded, create_session. cbn [snd sessions set_sessions].
  apply map_Forall_insert_2; [cbn; lia | exact H].
Qed.

Lemma add_turn_bounded (uuid : string) (now : Z)
      (sid um br : string) (m : ConversationMemoryManager) :
  0 < window_size m ->
  turns_bounded (Z.to_nat (window_size m)) m ->
  turns_bounded (Z.to_nat (window_size m)) (add_turn uuid now sid um br m).
Proof.
  intros Hw H. unfold add_turn.
  destruct (bool_decide (is_Some (sessions m !! sid))).
  - destruct (sessions m !! sid) as [session|]; [|exact H].
    unfold turns_bounded. cbn [sessions set_sessions].
    apply map_Forall_insert_2; [|exact H].
    cbn [turns]. rewrite trim_most_recent by exact Hw.
    apply length_most_recent.
  - pose proof (create_session_bounded _ uuid now m H) as H'.
    destruct (create_session uuid now m) as [sid' m'] eqn:Hc.
    assert (window_size m' = window_size m) as Hsize.
    { unfold create_session in Hc. by simplify_eq. }
    cbn [snd] in H'.
    destruct (sessions m' !! sid') as [session|]; [|exact H'].
    unfold turns_bounded. cbn [sessions set_sessions].
    apply map_Forall_insert_2; [|exact H'].
    cbn [turns]. rewrite Hsize, trim_most_recent by exact Hw.
    apply length_most_recent.
Qed.

Lemma apply_bounded (op : mutation) (m : ConversationMemoryManager) :
  0 < window_size m ->
  turns_bounded (Z.to_nat (window_size m)) m ->
  turns_bounded (Z.to_nat (window_size m)) (apply op m).
Proof.
  intros Hw H.
  destruct op as [uuid now|[sid|] uuid now|uuid now sid um br|now sid k v|sid];
    cbn [apply].
  - by apply create_session_bounded.
  - unfold get_or_create_session.
    destruct (_ && _); [exact H | by apply create_session_bounded].
  - by apply create_session_bounded.
  - by apply add_turn_bounded.
  - unfold update_context.
    destruct (sessions m !! sid) as [session|] eqn:Hs; [|exact H].
    unfold turns_bounded. cbn [sessions set_sessions].
    apply map_Forall_insert_2; [|exact H].
    cbn [turns]. exact (H sid session Hs).
  - unfold clear_session.
    destruct (sessions m !! sid); [|exact H].
    unfold turns_bounded. cbn [snd sessions set_sessions].
    by apply map_Forall_delete.
Qed.

Lemma run_bounded (ops : list mutation) (m : ConversationMemoryManager) :
  0 < window_size m ->
  turns_bounded (Z.to_nat (window_size m)) m ->
  window_size (run ops m) = window_size m
  /\ turns_bounded (Z.to_nat (window_size m)) (run ops m).
Proof.
  revert m. induction ops as [|op ops IH]; intros m Hw H; [by split|].
  cbn [run fold_left]. fold (run ops (apply op m)).
  pose proof (window_size_apply op m) as Hsize.
  destruct (IH (apply op m)) as [IH1 IH2].
  - by rewrite Hsize.
  - rewrite Hsize. by apply apply_bounded.
  - rewrite Hsize in IH1, IH2. by split.
Qed.

(** C8: after any sequence of mutations of the global store, every session
    holds at most W = 10 turns; and [add_turn] on a stored session leaves
    exactly the most recent 10 of its turns followed by the new one, the
    older turns being dropped. *)
Theorem turns_window_invariant :
  (forall ops session_id session,
      sessions (run ops memory_manager) !! session_id = Some session ->
      (length (turns session) <= 10)%nat)
  /\ (forall m uuid now session_id user_message bot_response session,
         window_size m = 10 ->
         sessions m !! session_id = Some session ->
         exists session',
           sessions (add_turn uuid now session_id user_message bot_response m)
             !! session_id = Some session'
           /\ turns session'
              = most_recent 10
                  (turns session
                   ++ [{| user_message := user_message;
                          bot_response := bot_response;
                          timestamp := now;
                          turn_number :=
                            Z.of_nat (length (turns session)) + 1 |}])).
Proof.
  split.
  - intros ops session_id session Hs.
    destruct (run_bounded ops memory_manager) as [_ H].
    + reflexivity.
    + apply map_Forall_empty.
    + exact (H session_id session Hs).
  - intros m uuid now session_id user_message bot_response session Hw Hs.
    unfold add_turn. rewrite Hs.
    rewrite bool_decide_eq_true_2 by eauto. rewrite Hs.
    eexists. cbn [sessions set_sessions].
    split; [apply lookup_insert_eq|].
    cbn [turns]. rewrite Hw. by rewrite trim_most_recent.
Qed.

Lemma turns_window_invariant_witness :
  exists session,
    sessions (run twelve_turns memory_manager) !! "u1" = Some session
    /\ map turn_number (turns session) = [3; 4; 5; 6; 7; 8; 9; 10; 11; 11]
    /\ (length (turns session) <= 10)%nat.
Proof.
  destruct (sessions (run twelve_turns memory_manager) !! "u1")
    as [session|] eqn:Hs; [|vm_compute in Hs; discriminate Hs].
  exists session. split; [reflexivity|]. split.
  - vm_compute in Hs. injection Hs as <-. reflexivity.
  - exact (proj1 turns_window_invariant twelve_turns "u1" session Hs).
Defined.

End Store.

Section SessionIds.

Import Memory.

(** C10, amended: [get_or_create_session] on an id that is not in the store
    creates a new empty session under the generated UUID, which is the id
    returned. The returned id is the id passed in, and the id passed in is
    registered, exactly when the generated UUID is that very id; an id that
    has not the form of a UUID4 is therefore never returned nor registered.
    A (non-empty) id that is in the store is returned unchanged, with the
    store untouched. *)
Theorem get_or_create_unknown_id :
  (forall m passed_id uuid now,
      sessions m !! passed_id = None ->
      let '(returned_id, m') :=
        get_or_create_session (Some passed_id) uuid now m in
      returned_id = uuid
      /\ sessions m' = <[uuid := fresh_session uuid now]> (sessions m)
      /\ (returned_id = passed_id <-> uuid = passed_id)
      /\ (is_Some (sessions m' !! passed_id) <-> uuid = passed_id)
      /\ (uuid4_text uuid = true -> uuid4_text passed_id = false ->
          returned_id <> passed_id /\ sessions m' !! passed_id = None))
  /\ (forall m passed_id uuid now,
         passed_id <> "" ->
         is_Some (sessions m !! passed_id) ->
         get_or_create_session (Some passed_id) uuid now m = (passed_id, m)).
Proof.
  split.
  - intros m passed_id uuid now Hnone.
    unfold get_or_create_session. rewrite Hnone.
    rewrite (bool_decide_eq_false_2 (is_Some None)) by (intros [? ?]; discriminate).
    rewrite andb_false_r. unfold create_session.
    cbn [sessions set_sessions].
    assert (is_Some (<[uuid := fresh_session uuid now]> (sessions m)
                       !! passed_id) <-> uuid = passed_id) as Hregistered.
    { split.
      - intros Hsome. destruct (decide (uuid = passed_id)) as [|Hne];
          [assumption|].
        rewrite lookup_insert_ne, Hnone in Hsome by exact Hne.
        by destruct Hsome.
      - intros ->. rewrite lookup_insert_eq. eauto. }
    split; [reflexivity|]. split; [reflexivity|].
    split; [reflexivity|]. split; [exact Hregistered|].
    intros Hform Hother.
    assert (uuid <> passed_id) as Hne by congruence.
    split; [exact Hne|]. by rewrite lookup_insert_ne.
  - intros m passed_id uuid now Hne Hsome.
    unfold get_or_create_session.
    rewrite (bool_decide_eq_true_2 _ Hsome).
    destruct (String.eqb passed_id "") eqn:He; [|reflexivity].
    by apply String.eqb_eq in He.
Qed.

Lemma get_or_create_unknown_id_witness :
  fst (get_or_create_session (Some "abc") sample_uuid 0 memory_manager)
  = sample_uuid
  /\ sessions (snd (get_or_create_session (Some "abc") sample_uuid 0
                      memory_manager))
       !! "abc" = None.
Proof.
  pose proof (proj1 get_or_create_unknown_id memory_manager "abc" sample_uuid 0
                eq_refl) as H.
  destruct (get_or_create_session (Some "abc") sample_uuid 0 memory_manager)
    as [returned_id m'].
  destruct H as (H1 & _ & _ & _ & H5). split; [exact H1|].
  apply H5; reflexivity.
Defined.

(** C10 as stated fails: nothing keeps the generated UUID apart from the
    id passed in. When the generator yields that id, an id unknown to the
    store is returned as it was passed and is registered. *)
Lemma generated_uuid_may_be_passed_id :
  uuid4_text sample_uuid = true
  /\ sessions memory_manager !! sample_uuid = None
  /\ fst (get_or_create_session (Some sample_uuid) sample_uuid 0
            memory_manager)
     = sample_uuid
  /\ is_Some (sessions (snd (get_or_create_session (Some sample_uuid)
                               sample_uuid 0 memory_manager))
              !! sample_uuid).
Proof.
  split; [vm_compute; reflexivity|]. split; [reflexivity|].
  split; [vm_compute; reflexivity|].
  unfold get_or_create_session, create_session. cbn [snd].
  rewrite (bool_decide_eq_false_2 (is_Some _))
    by (intros [? H]; discriminate H).
  rewrite andb_false_r. cbn [snd sessions set_sessions].
  rewrite lookup_insert_eq. eauto.
Qed.

End SessionIds.

(** * Further properties *)

(** * Further properties *)

(** ** The session store, continued *)

Section StoreMore.

Import Memory.

(** X1: a value written with [update_context] into a stored session is what
    [get_context] reads back, every other key of every session and every
    history stay as they were; on an unknown session the update is dropped
    without a trace. *)
Theorem update_context_round_trip
        (m : ConversationMemoryManager) (now : Z)
        (session_id key : string) (value : pyval) :
  (is_Some (sessions m !! session_id) ->
   let m' := update_context now session_id key value m in
   get_context session_id key m' = value
   /\ (forall other_id other_key,
          (other_id, other_key) <> (session_id, key) ->
          get_context other_id other_key m' = get_context other_id other_key m)
   /\ (forall other_id,
          get_conversation_history other_id m'
          = get_conversation_history other_id m))
  /\ (sessions m !! session_id = None ->
      update_context now session_id key value m = m
      /\ get_context session_id key
           (update_context now session_id key value m) = VNone).
Proof.
  split.
  - intros [session Hs]. cbn zeta. unfold update_context. rewrite Hs.
    split; [|split].
    + unfold get_context. cbn [sessions set_sessions].
      rewrite lookup_insert_eq. cbn [context]. unfold dict_get.
      by rewrite lookup_insert_eq.
    + intros other_id other_key Hne. unfold get_context.
      cbn [sessions set_sessions].
      destruct (decide (other_id = session_id)) as [->|Hid].
      * rewrite lookup_insert_eq, Hs. cbn [context]. unfold dict_get.
        rewrite lookup_insert_ne; [reflexivity|]. congruence.
      * by rewrite lookup_insert_ne.
    + intros other_id. unfold get_conversation_history.
      cbn [sessions set_sessions].
      destruct (decide (other_id = session_id)) as [->|Hid].
      * by rewrite lookup_insert_eq, Hs.
      * by rewrite lookup_insert_ne.
  - intros Hs. unfold update_context, get_context. rewrite Hs.
    split; [reflexivity|]. by rewrite Hs.
Qed.

Lemma update_context_round_trip_witness :
  get_context "u1" "area"
    (update_context 1 "u1" "area" (VStr "kuala_lumpur")
       (snd (create_session "u1" 0 memory_manager)))
  = VStr "kuala_lumpur".
Proof.
  refine (proj1 (proj1 (update_context_round_trip
                          (snd (create_session "u1" 0 memory_manager))
                          1 "u1" "area" (VStr "kuala_lumpur")) _)).
  vm_compute. eauto.
Defined.

(** X2: [add_turn] on an id that is not in the store does not register it:
    the turn goes into a new session under the generated UUID, and the
    history of the id passed in stays empty. *)
Theorem add_turn_unknown_session
        (m : ConversationMemoryManager) (uuid : string) (now : Z)
        (session_id user_message bot_response : string) :
  sessions m !! session_id = None ->
  uuid <> session_id ->
  0 <= window_size m ->
  let m' := add_turn uuid now session_id user_message bot_response m in
  sessions m' !! session_id = None
  /\ get_conversation_history session_id m' = []
  /\ get_conversation_history uuid m'
     = [{| user_message := user_message; bot_response := bot_response;
           timestamp := now; turn_number := 1 |}].
Proof.
  intros Hs Hne Hw. cbn zeta. unfold add_turn. rewrite Hs.
  rewrite (bool_decide_eq_false_2 (is_Some None))
    by (intros [? ?]; discriminate).
  unfold create_session. cbn [sessions set_sessions].
  rewrite lookup_insert_eq.
  cbn [turns length app sessions set_sessions window_size].
  unfold get_conversation_history. cbn [sessions set_sessions].
  rewrite lookup_insert_ne by exact Hne.
  rewrite lookup_insert_ne by exact Hne. rewrite Hs.
  rewrite lookup_insert_eq. cbn [turns].
  split; [reflexivity|]. split; [reflexivity|].
  match goal with
  | |- context [if ?c then _ else _] => destruct c eqn:Hgt
  end; [|reflexivity].
  apply Z.gtb_lt in Hgt.
  assert (window_size m = 0) as -> by lia. reflexivity.
Qed.

Lemma add_turn_unknown_session_witness :
  get_conversation_history "typo"
    (add_turn "0b7e" 5 "typo" "hi" "hello" memory_manager) = [].
Proof.
  refine (proj1 (proj2 (add_turn_unknown_session memory_manager "0b7e" 5
                          "typo" "hi" "hello" _ _ _))).
  - reflexivity.
  - discriminate.
  - vm_compute. discriminate.
Defined.

End StoreMore.

Section StoreInvariants.

Import Memory.

Lemma most_recent_Forall {A} (P : A -> Prop) (w : nat) (l : list A) :
  Forall P l -> Forall P (most_recent w l).
Proof. intros H. unfold most_recent. by apply Forall_drop. Qed.

Lemma add_turn_numbers (uuid : string) (now : Z)
      (sid um br : string) (m : ConversationMemoryManager) :
  window_size m = 10 ->
  turns_bounded 10 m ->
  turn_numbers_bounded 10 m ->
  turn_numbers_bounded 10 (add_turn uuid now sid um br m).
Proof.
  intros Hw Hb Hn. unfold add_turn.
  destruct (bool_decide (is_Some (sessions m !! sid))).
  - destruct (sessions m !! sid) as [session|] eqn:Hs; [|exact Hn].
    unfold turn_numbers_bounded. cbn [sessions set_sessions].
    apply map_Forall_insert_2; [|exact Hn].
    cbn [turns]. rewrite Hw, trim_most_recent by lia.
    apply most_recent_Forall, Forall_app. split; [exact (Hn sid session Hs)|].
    apply Forall_singleton. cbn [turn_number].
    pose proof (Hb sid session Hs) as Hlen. cbn beta in Hlen. lia.
  - unfold create_session. cbn [sessions set_sessions].
    rewrite lookup_insert_eq. unfold turn_numbers_bounded.
    cbn [sessions set_sessions turns window_size].
    apply map_Forall_insert_2.
    + cbn [turns]. rewrite Hw, trim_most_recent by lia.
      apply most_recent_Forall, Forall_singleton. cbn. lia.
    + apply map_Forall_insert_2; [constructor | exact Hn].
Qed.

Lemma apply_numbers (op : mutation) (m : ConversationMemoryManager) :
  window_size m = 10 ->
  turns_bounded 10 m ->
  turn_numbers_bounded 10 m ->
  turn_numbers_bounded 10 (apply op m).
Proof.
  intros Hw Hb Hn.
  assert (forall uuid now,
             turn_numbers_bounded 10 (snd (create_session uuid now m)))
    as Hcreate.
  { intros uuid now. unfold turn_numbers_bounded, create_session.
    cbn [snd sessions set_sessions].
    apply map_Forall_insert_2; [constructor | exact Hn]. }
  destruct op as [uuid now|[sid|] uuid now|uuid now sid um br|now sid k v|sid];
    cbn [apply].
  - apply Hcreate.
  - unfold get_or_create_session. destruct (_ && _); [exact Hn | apply Hcreate].
  - apply Hcreate.
  - by apply add_turn_numbers.
  - unfold update_context.
    destruct (sessions m !! sid) as [session|] eqn:Hs; [|exact Hn].
    unfold turn_numbers_bounded. cbn [sessions set_sessions].
    apply map_Forall_insert_2; [|exact Hn]. exact (Hn sid session Hs).
  - unfold clear_session. destruct (sessions m !! sid); [|exact Hn].
    unfold turn_numbers_bounded. cbn [snd sessions set_sessions].
    by apply map_Forall_delete.
Qed.

Lemma run_numbers (ops : list mutation) (m : ConversationMemoryManager) :
  window_size m = 10 ->
  turns_bounded 10 m ->
  turn_numbers_bounded 10 m ->
  turn_numbers_bounded 10 (run ops m).
Proof.
  revert m. induction ops as [|op ops IH]; intros m Hw Hb Hn; [exact Hn|].
  cbn [run fold_left]. fold (run ops (apply op m)).
  apply IH.
  - by rewrite window_size_apply.
  - pose proof (apply_bounded op m) as H. rewrite Hw in H.
    apply H; [lia | exact Hb].
  - by apply apply_numbers.
Qed.

(** X3: in the global store every stored turn has a [turn_number] between 1
    and 11, whatever the mutations before: once a session holds its ten
    turns, each new turn is numbered 11. *)
Theorem turn_numbers_saturate :
  (forall ops session_id session turn,
      sessions (run ops memory_manager) !! session_id = Some session ->
      In turn (turns session) ->
      1 <= turn_number turn <= 11)
  /\ (forall ops uuid now session_id user_message bot_response session,
         sessions (run ops memory_manager) !! session_id = Some session ->
         length (turns session) = 10%nat ->
         exists session',
           sessions (add_turn uuid now session_id user_message bot_response
                       (run ops memory_manager)) !! session_id
           = Some session'
           /\ turn_number <$> last (turns session') = Some 11).
Proof.
  split.
  - intros ops session_id session turn Hs Hin.
    assert (turn_numbers_bounded 10 (run ops memory_manager)) as H.
    { apply run_numbers; [reflexivity | apply map_Forall_empty
                          | apply map_Forall_empty]. }
    pose proof (H session_id session Hs) as Hall. cbn beta in Hall.
    rewrite Forall_forall in Hall. apply Hall.
    by apply list_elem_of_In.
  - intros ops uuid now session_id user_message bot_response session Hs Hlen.
    destruct (run_bounded ops memory_manager) as [Hw _];
      [reflexivity | apply map_Forall_empty|].
    unfold add_turn. rewrite bool_decide_eq_true_2 by eauto. rewrite Hs.
    eexists. cbn [sessions set_sessions].
    split; [apply lookup_insert_eq|]. cbn [turns].
    rewrite Hw. change (window_size memory_manager) with 10.
    rewrite trim_most_recent by lia. unfold most_recent.
    match goal with
    | |- context [drop ?n _] =>
        replace n with 1%nat by (rewrite length_app, Hlen; reflexivity)
    end.
    rewrite drop_app_le by lia. rewrite last_snoc.
    cbn [fmap option_fmap option_map turn_number]. by rewrite Hlen.
Qed.

Lemma turn_numbers_saturate_witness :
  exists session,
    sessions (run twelve_turns memory_manager) !! "u1" = Some session
    /\ Forall (fun turn => 1 <= turn_number turn <= 11) (turns session).
Proof.
  destruct (sessions (run twelve_turns memory_manager) !! "u1")
    as [session|] eqn:Hs; [|vm_compute in Hs; discriminate Hs].
  exists session. split; [reflexivity|].
  apply Forall_forall. intros turn Hin.
  apply (proj1 turn_numbers_saturate twelve_turns "u1" session turn Hs).
  by apply list_elem_of_In.
Defined.

(** X4: [clear_session] answers whether the session was there and removes
    it with its context and history, leaving the other sessions alone; a
    later [get_or_create_session] with the cleared id starts a session under
    a new id. *)
Theorem clear_session_forgets
        (m : ConversationMemoryManager) (session_id : string) :
  let '(cleared, m') := clear_session session_id m in
  cleared = bool_decide (is_Some (sessions m !! session_id))
  /\ sessions m' !! session_id = None
  /\ (forall key, get_context session_id key m' = VNone)
  /\ get_conversation_history session_id m' = []
  /\ (forall other_id,
         other_id <> session_id ->
         sessions m' !! other_id = sessions m !! other_id)
  /\ (forall uuid now,
         fst (get_or_create_session (Some session_id) uuid now m') = uuid).
Proof.
  unfold clear_session.
  destruct (sessions m !! session_id) as [session|] eqn:Hs.
  - assert (sessions (set_sessions m (delete session_id (sessions m)))
              !! session_id = None) as Hgone
      by (cbn [sessions set_sessions]; apply lookup_delete_eq).
    split; [by rewrite bool_decide_eq_true_2 by eauto|].
    split; [exact Hgone|].
    split; [intros key; unfold get_context; by rewrite Hgone|].
    split; [unfold get_conversation_history; by rewrite Hgone|].
    split.
    + intros other_id Hne. cbn [sessions set_sessions].
      by rewrite lookup_delete_ne.
    + intros uuid now. unfold get_or_create_session. rewrite Hgone.
      rewrite (bool_decide_eq_false_2 (is_Some None))
        by (intros [? ?]; discriminate).
      by rewrite andb_false_r.
  - split; [by rewrite bool_decide_eq_false_2
                 by (intros [? ?]; discriminate)|].
    split; [exact Hs|].
    split; [intros key; unfold get_context; by rewrite Hs|].
    split; [unfold get_conversation_history; by rewrite Hs|].
    split; [reflexivity|].
    intros uuid now. unfold get_or_create_session. rewrite Hs.
    rewrite (bool_decide_eq_false_2 (is_Some None))
      by (intros [? ?]; discriminate).
    by rewrite andb_false_r.
Qed.

End StoreInvariants.

Section StoreContext.

Import Memory.

Lemma clear_session_forgets_witness :
  sessions (snd (clear_session "u1" (snd (create_session "u1" 0 memory_manager))))
    !! "u1" = None.
Proof.
  pose proof (clear_session_forgets
                (snd (create_session "u1" 0 memory_manager)) "u1") as H.
  destruct (clear_session "u1" (snd (create_session "u1" 0 memory_manager)))
    as [cleared m'].
  exact (proj1 (proj2 H)).
Defined.

Lemma create_session_keeps (uuid : string) (now : Z)
      (m : ConversationMemoryManager) (session_id : string) :
  uuid <> session_id ->
  sessions (snd (create_session uuid now m)) !! session_id
  = sessions m !! session_id.
Proof.
  intros Hne. unfold create_session. cbn [snd sessions set_sessions].
  by rewrite lookup_insert_ne.
Qed.

(** One mutation that does not replace the session keeps its context,
    except for the key an [update_context] overwrites. *)
Lemma apply_keeps_context (op : mutation) (m : ConversationMemoryManager)
      (session_id : string) (session : ConversationSession) :
  sessions m !! session_id = Some session ->
  replaces_session op session_id = false ->
  exists session',
    sessions (apply op m) !! session_id = Some session'
    /\ forall key,
        context session' !! key = context session !! key
        \/ (exists now value,
               op = UpdateContext now session_id key value
               /\ context session' !! key = Some value).
Proof.
  intros Hs Hop.
  destruct op as [uuid now|osid uuid now|uuid now sid um br|now sid k v|sid];
    cbn [apply replaces_session] in *;
    try (apply String.eqb_neq in Hop).
  - exists session. rewrite create_session_keeps by exact Hop. eauto.
  - exists session. unfold get_or_create_session.
    destruct osid as [sid|];
      [destruct (_ && _)|]; rewrite ?create_session_keeps by exact Hop; eauto.
  - unfold add_turn.
    destruct (bool_decide (is_Some (sessions m !! sid))) eqn:Hex.
    + destruct (sessions m !! sid) as [target|] eqn:Ht; [|eauto].
      cbn [sessions set_sessions].
      destruct (decide (sid = session_id)) as [->|Hne].
      * rewrite lookup_insert_eq. eexists. split; [reflexivity|].
        cbn [context]. intros key. left. congruence.
      * rewrite lookup_insert_ne by exact Hne. eauto.
    + unfold create_session. cbn [sessions set_sessions].
      rewrite lookup_insert_eq. cbn [sessions set_sessions].
      rewrite lookup_insert_ne by exact Hop.
      rewrite lookup_insert_ne by exact Hop. eauto.
  - unfold update_context.
    destruct (sessions m !! sid) as [target|] eqn:Ht; [|eauto].
    cbn [sessions set_sessions].
    destruct (decide (sid = session_id)) as [->|Hne].
    + rewrite lookup_insert_eq. eexists. split; [reflexivity|].
      cbn [context]. intros key.
      assert (target = session) as -> by congruence.
      destruct (decide (k = key)) as [->|Hk].
      * right. exists now, v. split; [reflexivity|]. apply lookup_insert_eq.
      * left. by rewrite lookup_insert_ne.
    + rewrite lookup_insert_ne by exact Hne. eauto.
  - unfold clear_session. destruct (sessions m !! sid); [|eauto].
    cbn [snd sessions set_sessions]. rewrite lookup_delete_ne by exact Hop.
    eauto.
Qed.

(** X5: context keys are never removed on their own: along any sequence of
    mutations that neither clears the session nor draws its id as a new
    UUID, a key once set stays set. *)
Theorem context_keys_persist
        (ops : list mutation) (m : ConversationMemoryManager)
        (session_id key : string) (session : ConversationSession) :
  Forall (fun op => replaces_session op session_id = false) ops ->
  sessions m !! session_id = Some session ->
  is_Some (context session !! key) ->
  exists session',
    sessions (run ops m) !! session_id = Some session'
    /\ is_Some (context session' !! key).
Proof.
  revert m session. induction ops as [|op ops IH];
    intros m session Hops Hs Hkey; [by eauto|].
  apply Forall_cons in Hops as [Hop Hops].
  destruct (apply_keeps_context op m session_id session Hs Hop)
    as (session1 & Hs1 & Hctx).
  cbn [run fold_left]. fold (run ops (apply op m)).
  apply (IH _ session1 Hops Hs1).
  destruct (Hctx key) as [->|(now & value & _ & ->)]; eauto.
Qed.

Lemma context_keys_persist_witness :
  exists session',
    sessions (run [AddTurn "u2" 2 "u1" "hi" "hello"; ClearSession "u3"]
                (update_context 1 "u1" "area" (VStr "kuala_lumpur")
                   (snd (create_session "u1" 0 memory_manager))))
      !! "u1" = Some session'
    /\ is_Some (context session' !! "area").
Proof.
  eapply (context_keys_persist
            [AddTurn "u2" 2 "u1" "hi" "hello"; ClearSession "u3"]).
  - repeat constructor.
  - vm_compute. reflexivity.
  - vm_compute. eauto.
Defined.

(** X6: for a window that is not negative, the formatted history is the
    empty string exactly when the stored history is empty (the session is
    unknown or has no turn yet). *)
Theorem conversation_context_empty
        (m : ConversationMemoryManager) (session_id : string) :
  0 <= window_size m ->
  MemoryText.get_conversation_context session_id m = ""
  <-> get_conversation_history session_id m = [].
Proof.
  intros Hw.
  unfold MemoryText.get_conversation_context, get_conversation_history.
  destruct (sessions m !! session_id) as [session|]; [|tauto].
  destruct (turns session) as [|turn rest] eqn:Ht; [tauto|].
  split; [|discriminate]. intros H. exfalso.
  assert (exists first others,
             slice_from (- window_size m) (turn :: rest) = first :: others)
    as (first & others & Hslice).
  { unfold slice_from.
    destruct (drop _ (turn :: rest)) as [|first others] eqn:Hd; [|eauto].
    apply (f_equal length) in Hd. rewrite length_drop in Hd.
    cbn [length] in Hd.
    destruct (- window_size m <? 0) eqn:Hneg.
    - apply Z.ltb_lt in Hneg. lia.
    - apply Z.ltb_ge in Hneg. assert (window_size m = 0) as Hz by lia.
      rewrite Hz in Hd. cbn in Hd. lia. }
  rewrite Hslice in H. cbn in H. discriminate H.
Qed.

Lemma conversation_context_empty_witness :
  MemoryText.get_conversation_context "nobody" memory_manager = "".
Proof.
  apply conversation_context_empty; [vm_compute; discriminate | reflexivity].
Defined.

End StoreContext.

(** ** The orchestrator, continued *)

(** X7: the context updates [process_message] derives are consistent: they
    are empty without a location entity and otherwise remember it as
    [last_outlet_mentioned]; a [specific_location] never comes without the
    [area] it belongs to; and no other key is written. *)
Theorem context_updates_consistent
        (pi : ParsedIntent) (updates : gmap string pyval) :
  derive_context_updates pi = Ok updates ->
  (entities pi !! "location" = None -> updates = ∅)
  /\ (forall entity,
         entities pi !! "location" = Some entity ->
         updates !! "last_outlet_mentioned" = Some entity)
  /\ (forall specific,
         updates !! "specific_location" = Some specific ->
         exists s a,
           specific = VStr s
           /\ updates !! "area" = Some (VStr a)
           /\ In (s, a) location_table)
  /\ (forall key,
         is_Some (updates !! key) ->
         In key ["last_outlet_mentioned"; "area"; "specific_location"]).
Proof.
  unfold derive_context_updates.
  destruct (entities pi !! "location") as [entity|]; cycle 1.
  { intros [= <-]. split; [reflexivity|]. split; [discriminate|].
    split; [intros specific H; by rewrite lookup_empty in H|].
    intros key [v H]. by rewrite lookup_empty in H. }
  destruct entity as [|b|z|location|d]; cbn [lower_of rbind]; try discriminate.
  repeat split_goal_if; intros [= <-];
    (split; [discriminate|]);
    (split; [intros entity [= <-]; by simplify_map_eq|]);
    (split;
     [intros specific Hspec; simplify_map_eq;
      eexists _, _; (split; [reflexivity|]);
      (split; [reflexivity|]); cbn; tauto
     |intros key [v Hkey];
      repeat (apply lookup_insert_Some in Hkey as [[<- _]|[_ Hkey]];
              [cbn; tauto|]);
      apply lookup_singleton_Some in Hkey as [<- _]; cbn; tauto]).
Qed.

Lemma context_updates_consistent_witness :
  exists updates,
    derive_context_updates
      {| intent := HOURS_INQUIRY; entities := {[ "location" := VStr "klcc" ]};
         missing_info := []; confidence := 0.8 |} = Ok updates
    /\ updates !! "area" = Some (VStr "kuala_lumpur").
Proof.
  exists (<["specific_location" := VStr "klcc"]>
            (<["area" := VStr "kuala_lumpur"]>
               {[ "last_outlet_mentioned" := VStr "klcc" ]})).
  assert (derive_context_updates
            {| intent := HOURS_INQUIRY;
               entities := {[ "location" := VStr "klcc" ]};
               missing_info := []; confidence := 0.8 |}
          = Ok (<["specific_location" := VStr "klcc"]>
                  (<["area" := VStr "kuala_lumpur"]>
                     {[ "last_outlet_mentioned" := VStr "klcc" ]}))) as H
    by (vm_compute; reflexivity).
  split; [exact H|].
  destruct (proj1 (proj2 (proj2 (context_updates_consistent _ _ H)))
              (VStr "klcc")) as (s & a & _ & Harea & _);
    [reflexivity|].
  reflexivity.
Defined.

(** *** The tools on a readable catalogue *)

Lemma getitem_readable (o : gmap string string) (k : string) :
  readable_outlet o ->
  In k ["name"; "location"; "area"; "opening_time"; "closing_time"] ->
  exists v, getitem o k = Ok v.
Proof.
  intros Ho Hk. unfold readable_outlet in Ho. rewrite Forall_forall in Ho.
  destruct (Ho k) as [v Hv]; [by apply list_elem_of_In|].
  exists v. unfold getitem. by rewrite Hv.
Qed.

Lemma filter_outlets_readable
      (cond : gmap string string -> result bool)
      (data : list (gmap string string)) :
  (forall o, readable_outlet o -> exists b, cond o = Ok b) ->
  Forall readable_outlet data ->
  exists l, filter_outlets cond data = Ok l /\ Forall readable_outlet l.
Proof.
  intros Hcond. induction 1 as [|o data Ho Hdata (l & IH & Hl)].
  - exists []. by split.
  - destruct (Hcond o Ho) as [b Hb]. cbn [filter_outlets]. rewrite Hb, IH.
    cbn [rbind]. destruct b; eexists; (split; [reflexivity|]); auto.
Qed.

Lemma by_location_readable (location_lower : string)
      (o : gmap string string) :
  readable_outlet o -> exists b, by_location location_lower o = Ok b.
Proof.
  intros Ho. unfold by_location.
  destruct (getitem_readable o "location" Ho) as [loc ->]; [cbn; tauto|].
  destruct (getitem_readable o "area" Ho) as [a ->]; [cbn; tauto|].
  cbn [rbind]. destruct (Py.contains _ _); eauto.
Qed.

Lemma by_area_readable (area_lower : string) (o : gmap string string) :
  readable_outlet o -> exists b, by_area area_lower o = Ok b.
Proof.
  intros Ho. unfold by_area.
  destruct (getitem_readable o "area" Ho) as [a ->]; [cbn; tauto|].
  cbn [rbind]. eauto.
Qed.

Lemma select_outlets_readable
      (data : list (gmap string string)) (location area : pyval) :
  Forall readable_outlet data ->
  text_or_none location -> text_or_none area ->
  exists selected,
    select_outlets data location area = Ok selected
    /\ forall l, selected = Some l -> Forall readable_outlet l.
Proof.
  intros Hdata Hloc Harea. unfold select_outlets.
  destruct Hloc as [->|[s ->]]; cbn [truthy].
  - destruct Harea as [->|[a ->]]; cbn [truthy].
    + eexists. split; [reflexivity|]. discriminate.
    + destruct (negb (String.eqb a "")).
      * cbn [lower_of rbind].
        destruct (filter_outlets_readable (by_area (Py.lower a)) data)
          as (l & -> & Hl); [apply by_area_readable | exact Hdata|].
        cbn [rbind]. eexists. split; [reflexivity|]. by intros ? [= <-].
      * eexists. split; [reflexivity|]. discriminate.
  - destruct (negb (String.eqb s "")).
    + cbn [lower_of rbind].
      destruct (filter_outlets_readable (by_location (Py.lower s)) data)
        as (l & -> & Hl); [apply by_location_readable | exact Hdata|].
      cbn [rbind]. eexists. split; [reflexivity|]. by intros ? [= <-].
    + destruct Harea as [->|[a ->]]; cbn [truthy].
      * eexists. split; [reflexivity|]. discriminate.
      * destruct (negb (String.eqb a "")).
        -- cbn [lower_of rbind].
           destruct (filter_outlets_readable (by_area (Py.lower a)) data)
             as (l & -> & Hl); [apply by_area_readable | exact Hdata|].
           cbn [rbind]. eexists. split; [reflexivity|]. by intros ? [= <-].
        -- eexists. split; [reflexivity|]. discriminate.
Qed.

Lemma render_lines_readable
      (line : gmap string string -> result string)
      (l : list (gmap string string)) (acc : string) :
  (forall o, readable_outlet o -> exists s, line o = Ok s) ->
  Forall readable_outlet l ->
  exists s, render_lines line l acc = Ok s.
Proof.
  intros Hline Hl. revert acc.
  induction Hl as [|o l Ho Hl IH]; intros acc; [by eexists|].
  destruct (Hline o Ho) as [s Hs]. cbn [render_lines]. rewrite Hs.
  cbn [rbind]. apply IH.
Qed.

Lemma search_outlets_readable (te : ToolExecutor)
      (data : list (gmap string string)) (location area : pyval) :
  outlets_data te = Some data ->
  Forall readable_outlet data ->
  text_or_none location -> text_or_none area ->
  exists s, search_outlets te location area = Ok s.
Proof.
  intros Hte Hdata Hloc Harea. unfold search_outlets, load_outlets.
  rewrite Hte. cbn [rbind].
  destruct (select_outlets_readable data location area Hdata Hloc Harea)
    as (selected & -> & Hsel).
  cbn [rbind].
  assert (Forall readable_outlet (default data selected)) as Hl.
  { destruct selected as [l|]; [by apply Hsel | exact Hdata]. }
  destruct (default data selected) as [|o l]; [by eexists|].
  apply render_lines_readable; [|exact Hl].
  intros o' Ho'.
  destruct (getitem_readable o' "name" Ho') as [n ->]; [cbn; tauto|].
  destruct (getitem_readable o' "location" Ho') as [loc ->]; [cbn; tauto|].
  cbn [rbind]. eauto.
Qed.

Lemma get_hours_info_readable (te : ToolExecutor)
      (data : list (gmap string string)) (location area : pyval) :
  outlets_data te = Some data ->
  Forall readable_outlet data ->
  text_or_none location -> text_or_none area ->
  exists s, get_hours_info te location area = Ok s.
Proof.
  intros Hte Hdata Hloc Harea. unfold get_hours_info, load_outlets.
  rewrite Hte. cbn [rbind].
  destruct (select_outlets_readable data location area Hdata Hloc Harea)
    as (selected & -> & Hsel).
  cbn [rbind].
  destruct selected as [[|o l]|]; [by eexists | | by eexists].
  apply render_lines_readable; [|by apply Hsel].
  intros o' Ho'.
  destruct (getitem_readable o' "name" Ho') as [n ->]; [cbn; tauto|].
  destruct (getitem_readable o' "opening_time" Ho') as [ot ->]; [cbn; tauto|].
  destruct (getitem_readable o' "closing_time" Ho') as [ct ->]; [cbn; tauto|].
  cbn [rbind]. eauto.
Qed.

Lemma unpack_location (v : pyval) :
  unpack_location_area {[ "location" := v ]} = Ok (v, VNone).
Proof.
  unfold unpack_location_area.
  rewrite bool_decide_eq_true_2 by (rewrite dom_singleton_L; set_solver).
  unfold dict_get. rewrite lookup_singleton_eq.
  by rewrite lookup_singleton_ne by discriminate.
Qed.

Lemma unpack_area (v : pyval) :
  unpack_location_area {[ "area" := v ]} = Ok (VNone, v).
Proof.
  unfold unpack_location_area.
  rewrite bool_decide_eq_true_2 by (rewrite dom_singleton_L; set_solver).
  unfold dict_get. rewrite lookup_singleton_eq.
  by rewrite lookup_singleton_ne by discriminate.
Qed.

Lemma unpack_empty : unpack_location_area ∅ = Ok (VNone, VNone).
Proof.
  unfold unpack_location_area.
  rewrite bool_decide_eq_true_2 by (rewrite dom_empty_L; set_solver).
  unfold dict_get. by rewrite lookup_empty.
Qed.

(** The hours action runs the deferred call. *)
Lemma execute_tools_hours (te : ToolExecutor) (search_params : gmap string pyval)
      (why : string) (tools : list string) :
  let action :=
    {| action_type := PROVIDE_INFO;
       parameters :=
         <["tool_params" := VDict search_params]>
           {[ "tool_call" := VStr "get_hours_info" ]};
       reasoning := why; required_tools := tools |} in
  execute_tools te action
  = rbind (call_hours_info te (VDict search_params))
          (fun result => Ok (set_message action result)).
Proof.
  cbn zeta. unfold execute_tools. cbn [action_type parameters].
  unfold dict_get, getitem.
  rewrite lookup_insert_ne by discriminate. rewrite lookup_singleton_eq.
  cbn [default]. rewrite lookup_insert_eq. reflexivity.
Qed.

Lemma text_or_none_truthy (v : pyval) :
  text_or_none v -> truthy v = true -> exists s, v = VStr s.
Proof. intros [->|[s ->]] H; [discriminate H | eauto]. Qed.

Lemma extracted_location_text (message : string) (v : pyval) :
  extracted message !! "location" = Some v -> exists s, v = VStr s.
Proof.
  unfold extracted, set_found.
  destruct (Re.search _ _), (first_match malaysia_cities _),
    (first_match location_patterns _);
    cbn [fmap option_fmap option_map]; intros H; simplify_map_eq; eauto.
Qed.

Lemma classify_location_is_text
      (message : string) (session_context : gmap string pyval)
      (pi : ParsedIntent) :
  classify_intent message (Some session_context) = Ok pi ->
  location_is_text pi.
Proof.
  unfold location_is_text.
  classify_goal message; intros [= <-] v; cbn [entities];
    rewrite ?lookup_insert_ne by discriminate;
    try apply extracted_location_text.
  all: by rewrite lookup_empty.
Qed.

Lemma classify_operands_typed
      (message : string) (session_context : gmap string pyval)
      (pi : ParsedIntent) :
  classify_intent message (Some session_context) = Ok pi ->
  operands_typed pi.
Proof.
  intros H Hi Hmissing.
  destruct (classify_calculation_inv _ _ _ H Hi)
    as [(m & _ & _ & ->)|Hm]; [|congruence].
  eexists _, _, _. repeat split.
  - rewrite lookup_insert_ne by discriminate.
    rewrite lookup_insert_ne by discriminate. apply lookup_insert_eq.
  - rewrite lookup_insert_ne by discriminate. apply lookup_insert_eq.
  - apply lookup_insert_eq.
Qed.

Lemma derive_context_updates_text (pi : ParsedIntent) :
  location_is_text pi -> exists u, derive_context_updates pi = Ok u.
Proof.
  intros Ht. unfold derive_context_updates.
  destruct (entities pi !! "location") as [v|] eqn:Hv; [|eauto].
  destruct (Ht v Hv) as [s ->]. cbn [lower_of rbind].
  repeat split_goal_if; eauto.
Qed.

Lemma rbind_Ok {A B} (x : result A) (f : A -> result B) (b : B) :
  rbind x f = Ok b -> exists a, x = Ok a /\ f a = Ok b.
Proof. destruct x as [a|e]; cbn [rbind]; intros H; [eauto|discriminate H]. Qed.

Lemma set_message_replies (action : PlannedAction) (result : string) :
  action_type action <> ASK_CLARIFICATION ->
  replies_text (set_message action result).
Proof.
  intros Hne k. cbn [set_message action_type parameters].
  destruct (action_type action); cbn [reply_key]; intros [= <-];
    try congruence; eexists; apply lookup_insert_eq.
Qed.

(** An action that needs no tool is returned as it is. *)
Ltac untouched H :=
  match type of H with
  | execute_tools _ ?x = Ok ?a =>
      change (Ok x = Ok a) in H; injection H as <-;
      let k := fresh "k" in
      let Hk := fresh "Hk" in
      intros k Hk; cbn [action_type reply_key] in Hk; injection Hk as <-;
      eexists; reflexivity
  end.

(** An action whose tool ran carries the result as its message. *)
Ltac tool_ran H :=
  repeat (apply rbind_Ok in H; destruct H as (? & _ & H));
  injection H as <-; apply set_message_replies;
  cbn [action_type]; discriminate.

Lemma execute_tools_replies
      (te : ToolExecutor) (pi : ParsedIntent)
      (session_context : gmap string pyval) (a : PlannedAction) :
  execute_tools te (plan_action pi session_context) = Ok a ->
  replies_text a.
Proof.
  unfold plan_action.
  destruct (intent pi) eqn:Hi; try (intros H; untouched H).
  - split_goal_if; intros H; [untouched H|].
    unfold execute_tools in H; cbn [action_type parameters] in H. tool_ran H.
  - split_goal_if; intros H; [untouched H|].
    match type of H with
    | context [VDict ?p] =>
        pose proof (execute_tools_hours te p
          "User wants hours information and location is available from context"
          ["outlet_search"]) as E
    end.
    cbn zeta in E. rewrite E in H. tool_ran H.
  - destruct (missing_info pi) eqn:Hm; intros H; [|untouched H].
    unfold execute_tools in H; cbn [action_type parameters] in H. tool_ran H.
  - split_goal_if; intros H; [untouched H|].
    unfold execute_tools in H; cbn [action_type parameters] in H. tool_ran H.
  - split_goal_if; intros H; [untouched H|].
    unfold execute_tools in H; cbn [action_type parameters] in H. tool_ran H.
  - intros H. unfold execute_tools in H; cbn [action_type parameters] in H.
    tool_ran H.
  - intros H. unfold execute_tools in H; cbn [action_type parameters] in H.
    tool_ran H.
Qed.

Section Orchestrator.

Variable te : ToolExecutor.
Variable data : list (gmap string string).
Hypothesis Hdata : outlets_data te = Some data.
Hypothesis Hreadable : Forall readable_outlet data.

Lemma search_step (params : gmap string pyval) (location area : pyval)
      (why : string) (tools : list string) :
  unpack_location_area params = Ok (location, area) ->
  text_or_none location -> text_or_none area ->
  exists a,
    execute_tools te {| action_type := SEARCH_OUTLETS; parameters := params;
                        reasoning := why; required_tools := tools |} = Ok a.
Proof.
  intros Hu Hl Ha. unfold execute_tools. cbn [action_type parameters].
  rewrite Hu. cbn [rbind fst snd].
  destruct (search_outlets_readable te data location area Hdata Hreadable Hl Ha)
    as [s ->].
  cbn [rbind]. eauto.
Qed.

Lemma hours_step (params : gmap string pyval) (location area : pyval)
      (why : string) (tools : list string) :
  unpack_location_area params = Ok (location, area) ->
  text_or_none location -> text_or_none area ->
  exists a,
    execute_tools te
      {| action_type := PROVIDE_INFO;
         parameters :=
           <["tool_params" := VDict params]>
             {[ "tool_call" := VStr "get_hours_info" ]};
         reasoning := why; required_tools := tools |} = Ok a.
Proof.
  intros Hu Hl Ha.
  pose proof (execute_tools_hours te params why tools) as E.
  cbn zeta in E. rewrite E. unfold call_hours_info.
  rewrite Hu. cbn [rbind fst snd].
  destruct (get_hours_info_readable te data location area Hdata Hreadable Hl Ha)
    as [s ->].
  cbn [rbind]. eauto.
Qed.

Lemma execute_tools_readable
      (pi : ParsedIntent) (session_context : gmap string pyval) :
  (forall k, text_or_none (dict_get session_context k)) ->
  location_is_text pi -> operands_typed pi ->
  exists a, execute_tools te (plan_action pi session_context) = Ok a.
Proof.
  intros Hctx Hloc Hops.
  assert (Hnone : text_or_none VNone) by (left; reflexivity).
  unfold plan_action.
  destruct (intent pi) eqn:Hi;
    try (eexists; reflexivity).
  - (* outlet search *)
    split_goal_if; [eexists; reflexivity|].
    destruct (entities pi !! "location") as [v|] eqn:Hv.
    + destruct (Hloc v Hv) as [s ->].
      eapply search_step; [apply unpack_location| |]; [right|]; eauto.
    + split_goal_if.
      * eapply search_step; [apply unpack_area| |]; eauto.
      * eapply search_step; [apply unpack_empty| |]; eauto.
  - (* hours inquiry *)
    split_goal_if; [eexists; reflexivity|].
    destruct (entities pi !! "location") as [v|] eqn:Hv.
    + destruct (Hloc v Hv) as [s ->].
      eapply hours_step; [apply unpack_location| |]; [right|]; eauto.
    + repeat split_goal_if.
      * eapply hours_step; [apply unpack_location| |]; eauto.
      * eapply hours_step; [apply unpack_location| |]; eauto.
      * eapply hours_step; [apply unpack_area| |]; eauto.
      * eapply hours_step; [apply unpack_empty| |]; eauto.
  - (* calculation *)
    destruct (missing_info pi) eqn:Hm; [|eexists; reflexivity].
    destruct (Hops Hi Hm) as (a & op & b & H1 & H2 & H3).
    unfold execute_tools. cbn [action_type parameters]. unfold getitem.
    rewrite H1, H2, H3. cbn [rbind]. eauto.
  - split_goal_if; eexists; reflexivity.
  - split_goal_if; eexists; reflexivity.
Qed.

End Orchestrator.

Lemma outlet_record_readable (o : Outlets.OutletInfo) :
  readable_outlet (Chat.outlet_record o).
Proof.
  unfold readable_outlet, Chat.outlet_record.
  destruct (Outlets.address o), (Outlets.phone o); cbv beta zeta;
    repeat (apply Forall_cons; split; [|]); try (apply Forall_nil; exact I);
    rewrite ?lookup_insert_ne by discriminate;
    first [rewrite lookup_insert_eq | rewrite lookup_singleton_eq]; eauto.
Qed.

Lemma get_outlets_data_readable
      (outlets : list (string * list Outlets.OutletInfo)) :
  Forall readable_outlet (Chat.get_outlets_data outlets).
Proof.
  unfold Chat.get_outlets_data. apply Forall_map, Forall_forall.
  intros o _. apply outlet_record_readable.
Qed.

(** X8: a planner whose executor holds the data [_get_outlets_data] builds
    from a catalogue, run on a session context whose values are strings or
    [None], raises nothing but the [ValueError] of the classifier on an
    over-long run of digits, so nothing on a message of at most 4300
    characters: whenever [classify_intent] returns, [process_message]
    returns that intent with an action that carries a string under the key
    the agent reads its reply from. *)
Theorem process_message_returns
        (te : ToolExecutor) (outlets : list (string * list Outlets.OutletInfo))
        (message : string) (session_context : gmap string pyval) :
  outlets_data te = Some (Chat.get_outlets_data outlets) ->
  (forall k, text_or_none (dict_get session_context k)) ->
  (forall pi,
      classify_intent message (Some session_context) = Ok pi ->
      exists pr, process_message te message session_context = Ok pr
                 /\ result_intent pr = pi
                 /\ replies_text (result_action pr))
  /\ (forall e,
         process_message te message session_context = Raise e ->
         e = ValueError
         /\ classify_intent message (Some session_context) = Raise ValueError
         /\ over_long_digits message)
  /\ (Z.of_nat (String.length message) <= Py.int_max_str_digits ->
      exists pr, process_message te message session_context = Ok pr).
Proof.
  intros Hdata Hctx.
  assert (forall pi,
             classify_intent message (Some session_context) = Ok pi ->
             exists pr, process_message te message session_context = Ok pr
                        /\ result_intent pr = pi
                        /\ replies_text (result_action pr)) as Hreturns.
  { intros pi Hpi. unfold process_message. rewrite Hpi. cbn [rbind].
    pose proof (classify_location_is_text _ _ _ Hpi) as Hloc.
    pose proof (classify_operands_typed _ _ _ Hpi) as Hops.
    destruct (execute_tools_readable te _ Hdata
                (get_outlets_data_readable outlets)
                pi session_context Hctx Hloc Hops) as [a Ha].
    rewrite Ha.
    destruct (derive_context_updates_text pi Hloc) as [u ->].
    cbn [rbind]. eexists. split; [reflexivity|]. split; [reflexivity|].
    cbn [result_action]. eapply execute_tools_replies, Ha. }
  split; [exact Hreturns|]. split.
  - intros e He.
    destruct (classify_intent_cases message session_context)
      as [(pi & Hpi & _)|[Hraise Hlong]].
    + destruct (Hreturns pi Hpi) as (pr & Hpr & _). congruence.
    + unfold process_message in He. rewrite Hraise in He. cbn [rbind] in He.
      injection He as <-. auto.
  - intros Hshort.
    destruct (classify_intent_cases message session_context)
      as [(pi & Hpi & _)|[_ Hlong]].
    + destruct (Hreturns pi Hpi) as (pr & Hpr & _). eauto.
    + by destruct (short_message_digits message Hshort).
Qed.

Lemma process_message_returns_witness :
  exists pr,
    process_message catalogue_executor "what time does ss 2 open?"
                    {[ "area" := VStr "petaling_jaya" ]} = Ok pr
    /\ result_intent pr
       = {| intent := HOURS_INQUIRY;
            entities := {[ "location" := VStr "ss 2" ]};
            missing_info := []; confidence := 0.8 |}
    /\ replies_text (result_action pr).
Proof.
  apply (process_message_returns catalogue_executor Outlets.OUTLETS_DATA
           "what time does ss 2 open?" {[ "area" := VStr "petaling_jaya" ]}).
  - reflexivity.
  - intros k. destruct (decide (k = "area")) as [->|Hne].
    + right. eexists. reflexivity.
    + left. unfold dict_get. rewrite lookup_singleton_ne by congruence.
      reflexivity.
  - vm_compute. reflexivity.
Defined.

Lemma process_message_replies
      (te : ToolExecutor) (message : string)
      (session_context : gmap string pyval) (pr : PlannerResult) :
  process_message te message session_context = Ok pr ->
  replies_text (result_action pr).
Proof.
  unfold process_message. intros H.
  apply rbind_Ok in H. destruct H as (pi & _ & H).
  apply rbind_Ok in H. destruct H as (a & Ha & H).
  apply rbind_Ok in H. destruct H as (u & _ & H).
  injection H as <-. cbn [result_action].
  eapply execute_tools_replies, Ha.
Qed.

(** The reply of [process_message_with_planner] is a string. *)
Lemma chat_reply_text
      (agent : Main.ConversationAgent) (now : Z)
      (message session_id : string) (m : Memory.ConversationMemoryManager) :
  exists s,
    fst (Chat.process_message_with_planner agent now message session_id m)
    = VStr s.
Proof.
  unfold Chat.process_message_with_planner.
  destruct (process_message _ _ _) as [pr|e] eqn:Hp;
    [|destruct (Main.process_message _ _ _ _ _); cbn [fst]; eauto].
  pose proof (process_message_replies _ _ _ _ Hp) as Hr.
  unfold replies_text in Hr. unfold getitem.
  destruct (action_type (result_action pr)) eqn:Ht;
    cbn [reply_key] in Hr;
    try (destruct (Hr _ eq_refl) as [s ->]; cbn [fst]; eauto);
    destruct (Main.process_message _ _ _ _ _); cbn [fst]; eauto.
Qed.

(** X9: whatever the executor, the tools, the store and the message, both
    planner paths of the agent answer with a string: the reply of
    [process_message_with_planner] and the response text of
    [process_message_with_planner_detailed] are never another value. *)
Theorem planner_reply_is_text
        (agent : Main.ConversationAgent) (now : Z)
        (message session_id : string) (m : Memory.ConversationMemoryManager) :
  (exists s,
      fst (Chat.process_message_with_planner agent now message session_id m)
      = VStr s)
  /\ (exists s,
         Main.response_text
           (fst (Main.process_message_with_planner_detailed
                   agent now message session_id m))
         = VStr s).
Proof.
  split; [apply chat_reply_text|].
  unfold Main.process_message_with_planner_detailed, Main.planner_attempt.
  destruct (process_message _ _ _) as [pr|e] eqn:Hp;
    [|destruct (Main.process_message _ _ _ _ _);
      cbn [fst Main.response_text]; eauto].
  pose proof (process_message_replies _ _ _ _ Hp) as Hr.
  unfold replies_text in Hr. unfold getitem.
  destruct (action_type (result_action pr)) eqn:Ht;
    cbn [reply_key] in Hr;
    try (destruct (Hr _ eq_refl) as [s ->];
         cbn [fst Main.response_text]; eauto);
    destruct (Main.process_message _ _ _ _ _);
    cbn [fst Main.response_text]; eauto.
Qed.

Section ChatEndpoint.

Import Memory.

Lemma keeps_turns_refl (m : ConversationMemoryManager) : keeps_turns m m.
Proof. split; reflexivity. Qed.

Lemma keeps_turns_trans (m1 m2 m3 : ConversationMemoryManager) :
  keeps_turns m1 m2 -> keeps_turns m2 m3 -> keeps_turns m1 m3.
Proof.
  intros [Hw1 Ht1] [Hw2 Ht2]. split; [congruence|].
  intros sid. rewrite Ht2. apply Ht1.
Qed.

Lemma update_context_keeps_turns
      (now : Z) (session_id key : string) (value : pyval)
      (m : ConversationMemoryManager) :
  keeps_turns m (update_context now session_id key value m).
Proof.
  unfold update_context.
  destruct (sessions m !! session_id) as [session|] eqn:Hs;
    [|apply keeps_turns_refl].
  split; [reflexivity|]. intros sid. cbn [sessions set_sessions].
  destruct (decide (session_id = sid)) as [<-|Hne].
  - rewrite lookup_insert_eq, Hs. reflexivity.
  - rewrite lookup_insert_ne by exact Hne. reflexivity.
Qed.

Lemma apply_context_updates_keeps_turns
      (now : Z) (session_id : string) (updates : gmap string pyval)
      (m : ConversationMemoryManager) :
  keeps_turns m (Main.apply_context_updates now session_id updates m).
Proof.
  unfold Main.apply_context_updates.
  apply (map_fold_weak_ind (fun r _ => keeps_turns m r)).
  - apply keeps_turns_refl.
  - intros key value updates' r _ IH.
    eapply keeps_turns_trans; [exact IH|apply update_context_keeps_turns].
Qed.

Lemma extract_location_context_keeps_turns
      (now : Z) (message session_id : string) (m : ConversationMemoryManager) :
  keeps_turns m (Main.extract_location_context now message session_id m).
Proof.
  unfold Main.extract_location_context. cbv zeta.
  repeat split_goal_if;
    repeat first
      [ apply keeps_turns_refl
      | eapply keeps_turns_trans; [|apply update_context_keeps_turns] ].
Qed.

Lemma agent_process_message_keeps_turns
      (agent : Main.ConversationAgent) (now : Z) (message session_id : string)
      (m : ConversationMemoryManager) :
  keeps_turns m (snd (Main.process_message agent now message session_id m)).
Proof.
  unfold Main.process_message. cbv zeta.
  destruct (Main.chat_completion _ _ _ _); cbn [snd];
    apply extract_location_context_keeps_turns.
Qed.

Lemma planner_path_keeps_turns
      (agent : Main.ConversationAgent) (now : Z) (message session_id : string)
      (m : ConversationMemoryManager) :
  keeps_turns m
    (snd (Chat.process_message_with_planner agent now message session_id m)).
Proof.
  assert (forall m', keeps_turns m m' ->
            keeps_turns m
              (snd (let '(text, m'') :=
                      Main.process_message agent now message session_id m' in
                    (VStr text, m'')))) as Hfallback.
  { intros m' Hm'.
    pose proof (agent_process_message_keeps_turns
                  agent now message session_id m') as H.
    destruct (Main.process_message agent now message session_id m').
    cbn [snd] in *. eapply keeps_turns_trans; eassumption. }
  pose proof (apply_context_updates_keeps_turns now session_id) as Hupd.
  unfold Chat.process_message_with_planner.
  destruct (process_message _ _ _) as [pr|e];
    [|apply Hfallback, keeps_turns_refl].
  destruct (action_type (result_action pr));
    try (apply Hfallback, Hupd);
    destruct (getitem _ _); cbn [snd];
    first [apply Hupd | apply Hfallback, Hupd].
Qed.

Lemma get_or_create_session_exists
      (request_session_id : option string) (uuid : string) (now : Z)
      (m : ConversationMemoryManager) :
  let r := get_or_create_session request_session_id uuid now m in
  is_Some (sessions (snd r) !! fst r)
  /\ window_size (snd r) = window_size m.
Proof.
  cbv zeta. unfold get_or_create_session, create_session.
  destruct request_session_id as [sid|].
  - destruct (negb (sid =? "")%string) ; cbn [andb].
    + destruct (bool_decide (is_Some (sessions m !! sid))) eqn:Hb.
      * apply bool_decide_eq_true in Hb. cbn [fst snd]. eauto.
      * cbn [fst snd sessions set_sessions window_size].
        rewrite lookup_insert_eq. eauto.
    + cbn [fst snd sessions set_sessions window_size].
      rewrite lookup_insert_eq. eauto.
  - cbn [fst snd sessions set_sessions window_size].
    rewrite lookup_insert_eq. eauto.
Qed.

Lemma add_turn_existing
      (uuid : string) (now : Z) (session_id user_message bot_response : string)
      (m : ConversationMemoryManager) (session : ConversationSession) :
  sessions m !! session_id = Some session ->
  0 < window_size m ->
  get_conversation_history session_id
    (add_turn uuid now session_id user_message bot_response m)
  = most_recent (Z.to_nat (window_size m))
      (turns session
         ++ [{| Memory.user_message := user_message;
                Memory.bot_response := bot_response;
                timestamp := now;
                Memory.turn_number := Z.of_nat (length (turns session)) + 1 |}]).
Proof.
  intros Hs Hw. unfold add_turn, get_conversation_history.
  rewrite bool_decide_eq_true_2 by (rewrite Hs; eauto).
  rewrite Hs. cbn [sessions set_sessions].
  rewrite lookup_insert_eq. cbn [turns].
  apply trim_most_recent, Hw.
Qed.

Lemma most_recent_snoc {A} (w : nat) (l : list A) (x : A) :
  (0 < w)%nat ->
  length (most_recent w (l ++ [x])) = Nat.min (length l + 1) w
  /\ last (most_recent w (l ++ [x])) = Some x.
Proof.
  intros Hw. unfold most_recent. rewrite length_drop, length_app.
  cbn [length]. split; [lia|].
  rewrite drop_app_le by lia. apply last_snoc.
Qed.

(** X10: on a validated request and a positive window, the [/chat]
    endpoint never answers with status 500. The session of the response
    is the one [get_or_create_session] chose; its last stored turn is the
    request's message with the response, numbered one past the turns held
    before; the turn number of the response is that number capped at the
    window. *)
Theorem chat_always_answers
        (agent : Main.ConversationAgent) (d : Chat.Draws) (message : string)
        (request_session_id : option string) (m : ConversationMemoryManager) :
  0 < window_size m ->
  let opened :=
    get_or_create_session request_session_id
      (Chat.session_uuid d) (Chat.session_now d) m in
  let held :=
    Z.of_nat (length (get_conversation_history (fst opened) (snd opened))) in
  exists r m',
    Chat.chat agent d message request_session_id m = (Some r, m')
    /\ Chat.session_id r = fst opened
    /\ Chat.turn_number r = Z.min (held + 1) (window_size m)
    /\ last (get_conversation_history (fst opened) m')
       = Some {| Memory.user_message := message;
                 Memory.bot_response := Chat.response r;
                 timestamp := Chat.turn_now d;
                 Memory.turn_number := held + 1 |}.
Proof.
  intros Hw. cbv zeta. unfold Chat.chat.
  pose proof (get_or_create_session_exists request_session_id
                (Chat.session_uuid d) (Chat.session_now d) m) as Hopen.
  cbv zeta in Hopen.
  destruct (get_or_create_session _ _ _ m) as [sid m1].
  cbn [fst snd] in *. destruct Hopen as [[session Hs] Hw1].
  pose proof (planner_path_keeps_turns agent (Chat.planner_now d)
                message sid m1) as [Hw2 Hturns].
  destruct (chat_reply_text agent (Chat.planner_now d) message sid m1)
    as [reply Hreply].
  destruct (Chat.process_message_with_planner _ _ _ _ m1) as [v m2].
  cbn [fst snd] in *. subst v.
  specialize (Hturns sid). rewrite Hs in Hturns.
  destruct (sessions m2 !! sid) as [session2|] eqn:Hs2; [|discriminate Hturns].
  injection Hturns as Hturns.
  assert (0 < window_size m2) as Hw3 by lia.
  pose proof (add_turn_existing (Chat.turn_uuid d) (Chat.turn_now d) sid
                message reply m2 session2 Hs2 Hw3) as Hadd.
  destruct (most_recent_snoc (Z.to_nat (window_size m2)) (turns session2)
              {| Memory.user_message := message;
                 Memory.bot_response := reply;
                 timestamp := Chat.turn_now d;
                 Memory.turn_number := Z.of_nat (length (turns session2)) + 1 |})
    as [Hlen Hlast]; [lia|].
  eexists _, _. split; [reflexivity|].
  cbn [Chat.session_id Chat.turn_number Chat.response].
  unfold get_conversation_history at 2 4. rewrite Hs.
  rewrite Hadd, Hlen, Hlast, Hturns. repeat split. lia.
Qed.

End ChatEndpoint.

Lemma chat_always_answers_witness :
  exists r m',
    Chat.chat catalogue_agent
      {| Chat.session_uuid := "u1"; Chat.session_now := 0;
         Chat.planner_now := 1; Chat.turn_uuid := "u2"; Chat.turn_now := 2 |}
      "hello" None Memory.memory_manager = (Some r, m')
    /\ Chat.session_id r = "u1"
    /\ Chat.turn_number r = 1
    /\ last (Memory.get_conversation_history "u1" m')
       = Some {| Memory.user_message := "hello";
                 Memory.bot_response := Chat.response r;
                 Memory.timestamp := 2;
                 Memory.turn_number := 1 |}.
Proof.
  refine (chat_always_answers catalogue_agent
            {| Chat.session_uuid := "u1"; Chat.session_now := 0;
               Chat.planner_now := 1; Chat.turn_uuid := "u2";
               Chat.turn_now := 2 |}
            "hello" None Memory.memory_manager _).
  reflexivity.
Defined.

(** The catalogue against the planner's table: an area key selects no
    outlet, a specific location selects the one outlet at it. *)
Lemma catalogue_lookup (loc area : string) :
  In (loc, area) location_table ->
  truthy (VStr area) = true
  /\ select_outlets (Chat.get_outlets_data Outlets.OUTLETS_DATA)
                    VNone (VStr area) = Ok (Some [])
  /\ match select_outlets (Chat.get_outlets_data Outlets.OUTLETS_DATA)
                          (VStr loc) VNone with
     | Ok (Some [o]) => Py.lower <$> (o !! "location") = Some loc
     | _ => False
     end.
Proof.
  unfold location_table. cbn [In].
  intros [H|[H|[H|[H|[H|[]]]]]]; injection H as <- <-;
    (split; [reflexivity|]; split; vm_compute; reflexivity).
Qed.

(** X11: with the catalogue of [outlets.py], a request for opening hours or
    for outlets that names no location and is resolved from the remembered
    area finds nothing: the area is remembered under its key
    ([petaling_jaya], [kuala_lumpur]), which is no part of the area any
    outlet carries, so the reply is the no-match text, while each remembered
    specific location does select its outlet. *)
Theorem remembered_area_finds_nothing
        (te : ToolExecutor) (message : string)
        (session_context : gmap string pyval) (pi : ParsedIntent)
        (loc area : string) :
  outlets_data te = Some (Chat.get_outlets_data Outlets.OUTLETS_DATA) ->
  classify_intent message (Some session_context) = Ok pi ->
  intent pi = HOURS_INQUIRY \/ intent pi = OUTLET_SEARCH ->
  entities pi !! "location" = None ->
  In (loc, area) location_table ->
  dict_get session_context "area" = VStr area ->
  truthy (dict_get session_context "last_outlet_mentioned") = false ->
  truthy (dict_get session_context "specific_location") = false ->
  (exists pr,
      process_message te message session_context = Ok pr
      /\ reply_key (action_type (result_action pr)) = Some "message"
      /\ parameters (result_action pr) !! "message"
         = Some (VStr "No outlets found matching your criteria."))
  /\ (exists o,
         select_outlets (Chat.get_outlets_data Outlets.OUTLETS_DATA)
                        (VStr loc) VNone = Ok (Some [o])
         /\ Py.lower <$> (o !! "location") = Some loc).
Proof.
  intros Hdata Hpi Hint Hloc Hin Harea Hlast Hspec.
  destruct (catalogue_lookup loc area Hin) as (Htruthy & Hsel & Hone).
  split.
  - assert (get_hours_info te VNone (VStr area)
            = Ok "No outlets found matching your criteria.") as Hhours.
    { unfold get_hours_info, load_outlets. rewrite Hdata. cbn [rbind].
      rewrite Hsel. reflexivity. }
    assert (search_outlets te VNone (VStr area)
            = Ok "No outlets found matching your criteria.") as Hsearch.
    { unfold search_outlets, load_outlets. rewrite Hdata. cbn [rbind].
      rewrite Hsel. reflexivity. }
    unfold process_message. rewrite Hpi. cbn [rbind].
    unfold derive_context_updates. rewrite Hloc.
    unfold plan_action. destruct Hint as [Hi|Hi]; rewrite Hi.
    + rewrite Hloc, Hlast, Hspec, Harea, Htruthy.
      cbn [negb]. rewrite andb_false_r. cbn [andb].
      match goal with
      | |- context [VDict ?p] =>
          pose proof (execute_tools_hours te p
            "User wants hours information and location is available from context"
            ["outlet_search"]) as E
      end.
      cbn zeta in E. rewrite E. unfold call_hours_info.
      rewrite unpack_area. cbn [rbind fst snd]. rewrite Hhours. cbn [rbind].
      eexists. split; [reflexivity|].
      cbn [result_action set_message action_type parameters reply_key].
      split; [reflexivity|]. apply lookup_insert_eq.
    + rewrite Hloc, Harea, Htruthy.
      cbn [negb]. rewrite andb_false_r.
      unfold execute_tools. cbn [action_type parameters].
      rewrite unpack_area. cbn [rbind fst snd]. rewrite Hsearch. cbn [rbind].
      eexists. split; [reflexivity|].
      cbn [result_action set_message action_type parameters reply_key].
      split; [reflexivity|]. apply lookup_insert_eq.
  - destruct (select_outlets _ (VStr loc) VNone) as [[[|o []]|]|]; try easy.
    eauto.
Qed.

Lemma remembered_area_finds_nothing_witness :
  (exists pr,
      process_message catalogue_executor "when do you open?"
                      {[ "area" := VStr "petaling_jaya" ]} = Ok pr
      /\ reply_key (action_type (result_action pr)) = Some "message"
      /\ parameters (result_action pr) !! "message"
         = Some (VStr "No outlets found matching your criteria."))
  /\ (exists o,
         select_outlets (Chat.get_outlets_data Outlets.OUTLETS_DATA)
                        (VStr "ss 2") VNone = Ok (Some [o])
         /\ Py.lower <$> (o !! "location") = Some "ss 2").
Proof.
  refine (remembered_area_finds_nothing catalogue_executor "when do you open?"
            {[ "area" := VStr "petaling_jaya" ]}
            {| intent := HOURS_INQUIRY; entities := ∅;
               missing_info := []; confidence := 0.8 |}
            "ss 2" "petaling_jaya" _ _ _ _ _ _ _ _).
  - reflexivity.
  - vm_compute. reflexivity.
  - left. reflexivity.
  - reflexivity.
  - left. reflexivity.
  - reflexivity.
  - reflexivity.
  - reflexivity.
Defined.

Section LocationContext.

Import Memory.

Lemma update_context_lookup
      (now : Z) (session_id key : string) (value : pyval)
      (m : ConversationMemoryManager) :
  sessions (update_context now session_id key value m) !! session_id
  = (fun session =>
       {| Memory.session_id := Memory.session_id session;
          turns := turns session;
          context := <[key := value]> (context session);
          created_at := created_at session;
          last_updated := now |}) <$> sessions m !! session_id.
Proof.
  unfold update_context.
  destruct (sessions m !! session_id) as [session|] eqn:Hs.
  - cbn [sessions set_sessions]. by rewrite lookup_insert_eq.
  - by rewrite Hs.
Qed.

Ltac solve_lookup :=
  rewrite ?lookup_insert_ne by discriminate;
  first [reflexivity | apply lookup_insert_eq].

Ltac in_table :=
  unfold location_table; cbn [In map snd];
  repeat first [left; reflexivity | right].

(** X12: what one call of [extract_location_context] writes into the
    context of a session. Keys other than [area] and [specific_location]
    stay as they are; when the specific location is written, it is one of
    the planner's table and the area is written with it, as the table has
    it; otherwise the area is left alone or set to one of the two area
    keys. *)
Theorem extract_location_context_consistent
        (now : Z) (message session_id : string)
        (m : ConversationMemoryManager) (session : ConversationSession) :
  sessions m !! session_id = Some session ->
  exists session',
    sessions (Main.extract_location_context now message session_id m)
      !! session_id = Some session'
    /\ (forall k, k <> "area" -> k <> "specific_location" ->
                  context session' !! k = context session !! k)
    /\ ((context session' !! "specific_location"
         = context session !! "specific_location"
         /\ (context session' !! "area" = context session !! "area"
             \/ exists area,
                 In area (map snd location_table)
                 /\ context session' !! "area" = Some (VStr area)))
        \/ exists loc area,
            In (loc, area) location_table
            /\ context session' !! "specific_location" = Some (VStr loc)
            /\ context session' !! "area" = Some (VStr area)).
Proof.
  intros Hs. unfold Main.extract_location_context. cbv zeta.
  repeat split_goal_if;
    rewrite ?update_context_lookup, Hs;
    cbn [fmap option_fmap option_map];
    (eexists; split; [reflexivity|]; cbn [context]; split;
     [intros k Ha Hl; by rewrite ?lookup_insert_ne by congruence|]);
    first
      [ left; split; [solve_lookup|];
        first [ left; solve_lookup
              | right; eexists; split; [|solve_lookup]; in_table ]
      | right; eexists _, _; split; [|split; solve_lookup]; in_table ].
Qed.

Lemma extract_location_context_consistent_witness :
  exists session',
    sessions (Main.extract_location_context 1 "is the klcc outlet open?" "u1"
                (snd (create_session "u1" 0 memory_manager)))
      !! "u1" = Some session'
    /\ (forall k, k <> "area" -> k <> "specific_location" ->
                  context session' !! k = (∅ : gmap string pyval) !! k)
    /\ ((context session' !! "specific_location"
         = (∅ : gmap string pyval) !! "specific_location"
         /\ (context session' !! "area" = (∅ : gmap string pyval) !! "area"
             \/ exists area,
                 In area (map snd location_table)
                 /\ context session' !! "area" = Some (VStr area)))
        \/ exists loc area,
            In (loc, area) location_table
            /\ context session' !! "specific_location" = Some (VStr loc)
            /\ context session' !! "area" = Some (VStr area)).
Proof.
  apply (extract_location_context_consistent 1 "is the klcc outlet open?" "u1"
           (snd (create_session "u1" 0 memory_manager))
           {| Memory.session_id := "u1"; turns := []; context := ∅;
              created_at := 0; last_updated := 0 |}).
  reflexivity.
Defined.

End LocationContext.

Lemma occurs_app (c : ascii) (s t : string) :
  occurs c (s ++ t) = occurs c s || occurs c t.
Proof.
  induction s as [|a s IH]; [reflexivity|].
  change (String a s ++ t) with (String a (s ++ t)). cbn [occurs].
  rewrite IH. apply orb_assoc.
Qed.

(** What a replacement leaves of a character: its occurrences when it is
    not the replaced one, and those of the inserted text. *)
Lemma occurs_replace_char (c old : ascii) (new s : string) :
  occurs c (PyText.replace_char old new s)
  = (negb (Ascii.eqb old c) && occurs c s) || (occurs old s && occurs c new).
Proof.
  induction s as [|a s IH]; cbn [PyText.replace_char occurs];
    [by rewrite andb_false_r|].
  destruct (Ascii.eqb a old) eqn:Ha.
  - apply Ascii.eqb_eq in Ha. subst a.
    rewrite occurs_app, IH, ?Ascii.eqb_refl.
    destruct (Ascii.eqb old c), (occurs c s), (occurs old s), (occurs c new);
      reflexivity.
  - cbn [occurs]. rewrite IH.
    destruct (Ascii.eqb a c) eqn:Hc.
    + apply Ascii.eqb_eq in Hc. subst a. rewrite Ascii.eqb_sym, Ha.
      reflexivity.
    + destruct (Ascii.eqb old c), (occurs c s), (occurs old s), (occurs c new);
        reflexivity.
Qed.

Lemma html_escape_clean (c : ascii) (s : string) :
  In c markup_characters -> occurs c (PyText.html_escape s) = false.
Proof.
  unfold markup_characters, PyText.html_escape. cbn [In].
  intros [<-|[<-|[<-|[<-|[]]]]];
    rewrite !occurs_replace_char; cbn;
    repeat match goal with |- context [occurs ?x s] => destruct (occurs x s) end;
    reflexivity.
Qed.

(** X13: a message the request validator accepts is at most 10000
    characters long before the escape and holds, after it, no angle
    bracket and no quote of either kind. *)
Theorem validate_message_clean (v out : string) (c : ascii) :
  Chat.validate_message v = Some out ->
  In c markup_characters ->
  occurs c out = false /\ Z.of_nat (String.length v) <= 10000.
Proof.
  unfold Chat.validate_message. intros H Hc.
  destruct (Z.of_nat (String.length v) >? 10000) eqn:Hlen; [discriminate H|].
  injection H as <-. split; [apply html_escape_clean, Hc|].
  destruct (Z.gtb_spec (Z.of_nat (String.length v)) 10000) as [|Hle];
    [discriminate Hlen|].
  lia.
Qed.

Lemma validate_message_clean_witness :
  occurs "<"%char "&lt;b&gt;hi&lt;/b&gt;" = false
  /\ Z.of_nat (String.length "<b>hi</b>") <= 10000.
Proof.
  apply (validate_message_clean "<b>hi</b>" "&lt;b&gt;hi&lt;/b&gt;" "<"%char).
  - reflexivity.
  - left. reflexivity.
Defined.

Lemma lower_char_idempotent (c : ascii) :
  Py.lower_char (Py.lower_char c) = Py.lower_char c.
Proof. destruct c as [[] [] [] [] [] [] [] []]; vm_compute; reflexivity. Qed.

Lemma lower_idempotent (s : string) : Py.lower (Py.lower s) = Py.lower s.
Proof.
  induction s as [|c s IH]; cbn [Py.lower]; [reflexivity|].
  by rewrite lower_char_idempotent, IH.
Qed.

Lemma lower_char_keeps_space (c : ascii) :
  Ascii.eqb (Py.lower_char c) " " = Ascii.eqb c " ".
Proof. destruct c as [[] [] [] [] [] [] [] []]; vm_compute; reflexivity. Qed.

(** Lower-casing and the replacement of spaces commute. *)
Lemma lower_replace_space (s : string) :
  Py.lower (PyText.replace_char " " "_" s)
  = PyText.replace_char " " "_" (Py.lower s).
Proof.
  induction s as [|c s IH]; cbn [Py.lower PyText.replace_char]; [reflexivity|].
  rewrite lower_char_keeps_space. destruct (Ascii.eqb c " ").
  - change ("_" ++ ?x) with (String "_" x). cbn [Py.lower]. by rewrite IH.
  - cbn [Py.lower]. by rewrite IH.
Qed.

Lemma replace_space_idempotent (s : string) :
  PyText.replace_char " " "_" (PyText.replace_char " " "_" s)
  = PyText.replace_char " " "_" s.
Proof.
  induction s as [|c s IH]; cbn [PyText.replace_char]; [reflexivity|].
  destruct (Ascii.eqb c " ") eqn:Hc.
  - change ("_" ++ ?x) with (String "_" x). cbn [PyText.replace_char].
    change (Ascii.eqb "_" " ") with false. cbv iota. by rewrite IH.
  - cbn [PyText.replace_char]. rewrite Hc. by rewrite IH.
Qed.

(** X14: [find_outlets_by_area] reads its argument up to case and up to
    the choice between spaces and underscores, and over the catalogue of
    [outlets.py] every outlet it returns carries the requested area, read
    the same way. *)
Theorem find_outlets_by_area_normalises
        (outlets : list (string * list Outlets.OutletInfo)) (area : string) :
  Outlets.find_outlets_by_area outlets (Py.lower area)
  = Outlets.find_outlets_by_area outlets area
  /\ Outlets.find_outlets_by_area outlets (PyText.replace_char " " "_" area)
     = Outlets.find_outlets_by_area outlets area
  /\ forall o,
      In o (Outlets.find_outlets_by_area Outlets.OUTLETS_DATA area) ->
      PyText.replace_char " " "_" (Py.lower (Outlets.area o))
      = PyText.replace_char " " "_" (Py.lower area).
Proof.
  unfold Outlets.find_outlets_by_area. cbv zeta. repeat split.
  - by rewrite lower_idempotent.
  - by rewrite lower_replace_space, replace_space_idempotent.
  - intros o. unfold Outlets.OUTLETS_DATA. cbn [Outlets.get_or_empty].
    destruct (String.eqb "petaling_jaya" _) eqn:Hpj.
    { apply String.eqb_eq in Hpj. rewrite <- Hpj. cbn [In].
      intros [<-|[<-|[<-|[]]]]; reflexivity. }
    destruct (String.eqb "kuala_lumpur" _) eqn:Hkl.
    { apply String.eqb_eq in Hkl. rewrite <- Hkl. cbn [In].
      intros [<-|[<-|[]]]; reflexivity. }
    intros [].
Qed.

Lemma contains_empty (s : string) : Py.contains "" s = true.
Proof. destruct s; vm_compute; reflexivity. Qed.

(** X15: the empty query matches every outlet: [search_outlets] returns
    the whole catalogue in its order, and [find_outlet_by_location] the
    first outlet of the area. *)
Theorem empty_query_matches_all
        (outlets : list (string * list Outlets.OutletInfo)) (area : string) :
  Outlets.search_outlets outlets "" = concat (map snd outlets)
  /\ Outlets.find_outlet_by_location outlets area ""
     = head (Outlets.find_outlets_by_area outlets area).
Proof.
  unfold Outlets.search_outlets, Outlets.find_outlet_by_location.
  cbv zeta. change (Py.lower "") with "". split.
  - induction (concat (map snd outlets)) as [|o l IH]; [reflexivity|].
    cbn [List.filter]. rewrite contains_empty. cbn [orb]. by rewrite IH.
  - destruct (Outlets.find_outlets_by_area outlets area) as [|o l];
      [reflexivity|].
    cbn [find head]. by rewrite contains_empty.
Qed.








(** X17: the endpoints that raise status 404 inside their own [try] never
    answer with it: removing an unknown session and asking for the outlets of
    an area without outlets both end in status 500, and in no other case. *)
Theorem not_found_becomes_500
        (session_id : string) (m : Memory.ConversationMemoryManager)
        (outlets : list (string * list Outlets.OutletInfo)) (area : string) :
  (Memory.sessions m !! session_id = None
   <-> fst (Api.clear_session session_id m) = Api.HTTPException 500)
  /\ fst (Api.clear_session session_id m) <> Api.HTTPException 404
  /\ (Outlets.find_outlets_by_area outlets area = []
      <-> Api.get_outlets_by_area outlets area = Api.HTTPException 500)
  /\ Api.get_outlets_by_area outlets area <> Api.HTTPException 404.
Proof.
  unfold Api.clear_session, Api.get_outlets_by_area, Memory.clear_session.
  destruct (Memory.sessions m !! session_id) as [session|];
    destruct (Outlets.find_outlets_by_area outlets area) as [|o found];
    cbn [fst Api.except_exception]; repeat split;
    intros H; try reflexivity; discriminate H.
Qed.
